(** * TrueCount Terminal: the blackjack decision engine

    A shallow embedding of the calculation core of
    [src/TrueCountTerminal.js]: [getCardValue], [evaluateHand],
    [calculateProbabilities], [getStrategyRecommendation],
    [calculateOptimalBetForNextRound], and of the component around it:
    its state, [initializeDeck], [addCard], [removeCard], [resetGame],
    [finishHand], the memos [currentAnalysis] and [nextRoundBetting], the
    rows of the session log and the handlers of the controls.

    Numbers.  A JavaScript number is read in two ways.

    In the exact reading (module [Num]) it is a rational, or one of the
    three special values [Infinity], [-Infinity] and [NaN], with the
    rules of the language for the special values (division by zero,
    [Infinity - Infinity], [0 * Infinity], comparisons with [NaN],
    [Math.max]/[Math.min] on [NaN]); sums, products and quotients are
    not rounded and zero has no sign.  This reading carries the
    properties that rounding does not touch: which branch is taken, which
    action is recommended, the ranges of the estimates, the bookkeeping
    of the component.

    In the binary64 reading (module [B64]) it is the binary64 value
    itself, and every operation is the one of IEEE 754 in
    round-to-nearest-even, on the primitive floats.  The three functions
    that compute on fractions are embedded in this reading too, and it
    carries the properties that depend on the rounded values: the sum of
    the three probabilities, the accumulation of [hitEV], the floor in
    the bet.

    Quantities on which the source only counts (hand totals, number of
    aces, cards left of a rank) are integers and naturals in both. *)

From Stdlib Require Import ZArith QArith Qcanon Qround List Lia Lqa Permutation
  Bool Floats.
Import ListNotations.

Set Warnings "-inexact-float".

(** ** Numbers *)

Module Num.

Inductive num : Type :=
| Fin (q : Qc)
| PInf
| NInf
| NaN.

Definition lit (q : Q) : num := Fin (Q2Qc q).
Definition of_Z (z : Z) : num := Fin (Q2Qc (inject_Z z)).
Definition of_nat (n : nat) : num := of_Z (Z.of_nat n).

(** Sign of a number that is not [NaN]; zero is [Eq]. *)
Definition sign (x : num) : option comparison :=
  match x with
  | Fin q => Some (q ?= 0)%Qc
  | PInf => Some Gt
  | NInf => Some Lt
  | NaN => None
  end.

Definition inf_of (c : comparison) : num :=
  match c with Gt => PInf | Lt => NInf | Eq => NaN end.

Definition neg (x : num) : num :=
  match x with
  | Fin q => Fin (- q)%Qc
  | PInf => NInf
  | NInf => PInf
  | NaN => NaN
  end.

Definition add (x y : num) : num :=
  match x, y with
  | NaN, _ | _, NaN => NaN
  | Fin a, Fin b => Fin (a + b)%Qc
  | PInf, NInf | NInf, PInf => NaN
  | PInf, _ | _, PInf => PInf
  | NInf, _ | _, NInf => NInf
  end.

Definition sub (x y : num) : num := add x (neg y).

Definition mul_sign (c1 c2 : comparison) : comparison :=
  match c1, c2 with
  | Eq, _ | _, Eq => Eq
  | Gt, Gt | Lt, Lt => Gt
  | _, _ => Lt
  end.

Definition mul (x y : num) : num :=
  match x, y with
  | Fin a, Fin b => Fin (a * b)%Qc
  | _, _ =>
      match sign x, sign y with
      | Some c1, Some c2 => inf_of (mul_sign c1 c2)
      | _, _ => NaN
      end
  end.

(** [x / y].  A finite numerator over zero gives an infinity of the sign
    of the numerator, and [0 / 0] is [NaN]. *)
Definition div (x y : num) : num :=
  match x, y with
  | NaN, _ | _, NaN => NaN
  | Fin a, Fin b =>
      if Qc_eq_bool b 0 then inf_of (a ?= 0)%Qc else Fin (a / b)%Qc
  | Fin _, _ => Fin 0%Qc
  | _, Fin b =>
      match sign x with
      | Some c => inf_of (mul_sign c (if Qc_eq_bool b 0 then Gt else (b ?= 0)%Qc))
      | None => NaN
      end
  | _, _ => NaN
  end.

(** [Math.floor] *)
Definition floor (x : num) : num :=
  match x with
  | Fin q => of_Z (Qfloor q)
  | _ => x
  end.

(** [x < y]; false as soon as one side is [NaN]. *)
Definition ltb (x y : num) : bool :=
  match x, y with
  | NaN, _ | _, NaN => false
  | Fin a, Fin b => match (a ?= b)%Qc with Lt => true | _ => false end
  | NInf, NInf | PInf, _ | _, NInf => false
  | _, _ => true
  end.

(** [x === y] on numbers: [NaN] is different from itself. *)
Definition strict_eqb (x y : num) : bool :=
  match x, y with
  | Fin a, Fin b => Qc_eq_bool a b
  | PInf, PInf | NInf, NInf => true
  | _, _ => false
  end.

(** [Math.max(x, y)] and [Math.min(x, y)]: [NaN] if an argument is. *)
Definition max (x y : num) : num :=
  match x, y with
  | NaN, _ | _, NaN => NaN
  | _, _ => if ltb x y then y else x
  end.

Definition min (x y : num) : num :=
  match x, y with
  | NaN, _ | _, NaN => NaN
  | _, _ => if ltb y x then y else x
  end.

(** [x <= y]; false as soon as one side is [NaN]. *)
Definition leb (x y : num) : bool :=
  match x, y with
  | NaN, _ | _, NaN => false
  | _, _ => negb (ltb y x)
  end.

(** [lo <= x && x <= hi] *)
Definition between (lo hi x : num) : bool := leb lo x && leb x hi.

(** Truthiness of a number, for [x || d]: [0] and [NaN] are falsy. *)
Definition truthy (x : num) : bool :=
  match x with
  | Fin q => negb (Qc_eq_bool q 0)
  | NaN => false
  | _ => true
  end.

End Num.

Import Num.

Declare Scope num_scope.
Delimit Scope num_scope with num.
Bind Scope num_scope with num.
Infix "+" := add : num_scope.
Infix "-" := sub : num_scope.
Infix "*" := mul : num_scope.
Infix "/" := div : num_scope.
Notation "- x" := (neg x) : num_scope.

Open Scope Z_scope.

(** ** Cards and hands *)

(** The thirteen ranks, the strings of [CARD_VALUES]. *)
Inductive Rank : Type :=
| cA | c2 | c3 | c4 | c5 | c6 | c7 | c8 | c9 | c10 | cJ | cQ | cK.

Definition Rank_eq_dec (a b : Rank) : {a = b} + {a <> b}.
Proof. decide equality. Defined.

Definition Rank_eqb (a b : Rank) : bool :=
  if Rank_eq_dec a b then true else false.

Definition CARD_VALUES : list Rank :=
  [cA; c2; c3; c4; c5; c6; c7; c8; c9; c10; cJ; cQ; cK].

(** [parseInt] on the ranks that are numerals; [getCardValue] sends no
    other rank to it. *)
Definition parseInt (card : Rank) : Z :=
  match card with
  | c2 => 2 | c3 => 3 | c4 => 4 | c5 => 5 | c6 => 6
  | c7 => 7 | c8 => 8 | c9 => 9 | c10 => 10
  | _ => 0
  end.

Definition getCardValue (card : Rank) (isAce11 : bool) : Z :=
  if Rank_eqb card cA then (if isAce11 then 11 else 1)
  else if existsb (Rank_eqb card) [cJ; cQ; cK] then 10
  else parseInt card.

Record HandEval : Type := mkHandEval {
  total : Z;
  isSoft : bool;
  isBlackjack : bool;
  isBust : bool
}.

(** One turn of the [for] loop of [evaluateHand], on [(total, aces)]. *)
Definition count_card (st : Z * nat) (card : Rank) : Z * nat :=
  let '(total, aces) := st in
  if Rank_eqb card cA then (total + 11, S aces)
  else (total + getCardValue card true, aces).

(** The loop [while (total > 21 && aces > 0)]; it stops because [aces]
    goes down. *)
Fixpoint adjust_aces (total : Z) (aces : nat) : Z * nat :=
  match aces with
  | O => (total, aces)
  | S aces' =>
      if total >? 21 then adjust_aces (total - 10) aces' else (total, aces)
  end.

Definition evaluateHand (cards : list Rank) : HandEval :=
  let '(total, aces) := fold_left count_card cards (0, 0%nat) in
  let '(total, aces) := adjust_aces total aces in
  {| total := total;
     isSoft := (0 <? aces)%nat && (total <=? 21);
     isBlackjack := (length cards =? 2)%nat && (total =? 21);
     isBust := total >? 21 |}.

(** The total of a hand with every ace at 11, and its number of aces. *)
Definition raw_total (cards : list Rank) : Z :=
  fold_right (fun card sum => getCardValue card true + sum) 0 cards.

Definition count_aces (cards : list Rank) : nat :=
  count_occ Rank_eq_dec cards cA.

(** ** The shoe *)

(** The object [deck]: one count for each of the thirteen keys. *)
Definition Deck : Type := Rank -> nat.

(** [{ ...deck, [card]: n }] *)
Definition deck_set (deck : Deck) (card : Rank) (n : nat) : Deck :=
  fun r => if Rank_eq_dec r card then n else deck r.

Definition initializeDeck : Deck :=
  fold_left (fun deck value => deck_set deck value 24%nat) CARD_VALUES
            (fun _ => 0%nat).

(** The keys of a deck in the order in which [Object.values] and
    [Object.entries] visit them: first the keys that are integers, in
    ascending order, then the others in the order of their insertion. *)
Definition deck_keys : list Rank :=
  [c2; c3; c4; c5; c6; c7; c8; c9; c10; cA; cJ; cQ; cK].

Definition Object_values (deck : Deck) : list nat := map deck deck_keys.

Definition Object_entries (deck : Deck) : list (Rank * nat) :=
  map (fun r => (r, deck r)) deck_keys.

(** [Object.values(deck).reduce((sum, count) => sum + count, 0)] *)
Definition totalRemaining (deck : Deck) : nat :=
  fold_left (fun sum count => (sum + count)%nat) (Object_values deck) 0%nat.

(** ** Probability estimation *)

Record Probabilities : Type := mkProbabilities {
  winProb : num;
  lossProb : num;
  pushProb : num;
  dealerBustProb : num
}.

(** The table [dealerBustProbabilities], keyed by the value of the up card. *)
Definition dealerBustProbabilities (v : Z) : option num :=
  match v with
  | 2 => Some (lit 0.35) | 3 => Some (lit 0.37) | 4 => Some (lit 0.40)
  | 5 => Some (lit 0.42) | 6 => Some (lit 0.42) | 7 => Some (lit 0.26)
  | 8 => Some (lit 0.24) | 9 => Some (lit 0.23) | 10 => Some (lit 0.23)
  | 11 => Some (lit 0.17)
  | _ => None
  end.

(** [o || d], where a missing entry is [undefined]. *)
Definition or_else (o : option num) (d : num) : num :=
  match o with
  | Some x => if truthy x then x else d
  | None => d
  end.

Definition calculateProbabilities
    (playerCards : list Rank) (dealerUpCard : Rank) (deck : Deck)
    : Probabilities :=
  let totalRemaining := totalRemaining deck in
  if (totalRemaining =? 0)%nat then
    {| winProb := lit 0; lossProb := lit 1; pushProb := lit 0;
       dealerBustProb := lit 0 |}
  else
    let playerHand := evaluateHand playerCards in
    let dealerCardValue := getCardValue dealerUpCard true in
    let dealerBustProb :=
      or_else (dealerBustProbabilities dealerCardValue) (lit 0.23) in
    let lowCards :=
      (of_nat (deck c2 + deck c3 + deck c4 + deck c5 + deck c6)
       / of_nat totalRemaining)%num in
    let highCards :=
      (of_nat (deck c10 + deck cJ + deck cQ + deck cK + deck cA)
       / of_nat totalRemaining)%num in
    let dealerBustProb :=
      (dealerBustProb + (lowCards - highCards) * lit 0.1)%num in
    let dealerBustProb := max (lit 0.1) (min (lit 0.6) dealerBustProb) in
    if isBust playerHand then
      {| winProb := lit 0; lossProb := lit 1; pushProb := lit 0;
         dealerBustProb := dealerBustProb |}
    else if isBlackjack playerHand then
      let dealerBlackjackProb :=
        if Rank_eqb dealerUpCard cA then lit 0.31
        else if dealerCardValue =? 10 then lit 0.08 else lit 0 in
      {| winProb := (lit 1 - dealerBlackjackProb)%num;
         lossProb := lit 0;
         pushProb := dealerBlackjackProb;
         dealerBustProb := dealerBustProb |}
    else
      let playerTotal := total playerHand in
      let winProb :=
        if playerTotal >=? 17 then
          (dealerBustProb + (lit 1 - dealerBustProb) * lit 0.4)%num
        else if playerTotal >=? 12 then
          (dealerBustProb + (lit 1 - dealerBustProb) * lit 0.2)%num
        else (dealerBustProb * lit 0.5)%num in
      let pushProb := lit 0.1 in
      let lossProb := (lit 1 - winProb - pushProb)%num in
      {| winProb := winProb; lossProb := lossProb; pushProb := pushProb;
         dealerBustProb := dealerBustProb |}.

(** ** Calls that may fail *)

(** What a call of a JavaScript function ends in.  [TypeError] is the
    error of the language for a property read on [undefined].  The two
    other names are the errors that the description of the engine speaks
    of; no [throw] of the source raises them. *)
Inductive exn : Type :=
| TypeError
| InvalidBankrollError
| DepletedRankError.

Inductive outcome (A : Type) : Type :=
| Returns (a : A)
| Throws (e : exn).

Arguments Returns {A} a.
Arguments Throws {A} e.

(** A parameter with a default value; [None] is an argument left out. *)
Definition with_default {A : Type} (d : A) (arg : option A) : A :=
  match arg with Some a => a | None => d end.

(** ** Strategy recommendation *)

Inductive Action : Type := STAND | HIT | DOUBLE | SPLIT.

Definition Action_eq_dec (a b : Action) : {a = b} + {a <> b}.
Proof. decide equality. Defined.

Record ActionEV : Type := mkActionEV {
  action : Action;
  ev : num
}.

(** An object keyed by action names, with its keys in insertion order. *)
Definition EVObject : Type := list (Action * num).

(** [{ ...acc, [k]: v }] *)
Fixpoint obj_set (acc : EVObject) (k : Action) (v : num) : EVObject :=
  match acc with
  | [] => [(k, v)]
  | (k', v') :: acc' =>
      if Action_eq_dec k' k then (k, v) :: acc'
      else (k', v') :: obj_set acc' k v
  end.

Fixpoint obj_get (o : EVObject) (k : Action) : option num :=
  match o with
  | [] => None
  | (k', v) :: o' => if Action_eq_dec k' k then Some v else obj_get o' k
  end.

Record Recommendation : Type := mkRecommendation {
  recommendedAction : Action;
  expectedValues : EVObject;
  standEV : num;
  hitEV : num
}.

(** [probs.winProb * 1 + probs.lossProb * (-1) + probs.pushProb * 0] *)
Definition stand_ev (probs : Probabilities) : num :=
  (winProb probs * lit 1 + lossProb probs * lit (-1)
   + pushProb probs * lit 0)%num.

(** The body of [for (const [card, count] of Object.entries(deck))],
    as a function of the running [hitEV]. *)
Definition hit_step
    (playerCards : list Rank) (dealerUpCard : Rank) (deck : Deck)
    (standEV : num) (totalRemaining : nat)
    (hitEV : num) (entry : Rank * nat) : num :=
  let '(card, count) := entry in
  if (0 <? count)%nat then
    let newCards := playerCards ++ [card] in
    let newHand := evaluateHand newCards in
    let cardProb := (of_nat count / of_nat totalRemaining)%num in
    if isBust newHand then
      (hitEV + cardProb * (lit (-1) - standEV))%num
    else
      let newProbs :=
        calculateProbabilities newCards dealerUpCard
          (deck_set deck card (count - 1)%nat) in
      let newStandEV := stand_ev newProbs in
      (hitEV + cardProb * (newStandEV - standEV))%num
  else hitEV.

(** The order that a comparison function gives to [sort]: a negative
    result puts the first argument first, a positive one the second, and
    [0] or [NaN] leaves the two as they are. *)
Definition sort_order (v : num) : comparison :=
  match v with
  | Fin q => (q ?= 0)%Qc
  | PInf => Gt
  | NInf => Lt
  | NaN => Eq
  end.

(** [Array.prototype.sort] is a stable sort; here by insertion, each
    element going behind the ones that must not follow it. *)
Fixpoint insert_sorted {A : Type} (cmp : A -> A -> num) (x : A) (l : list A)
    : list A :=
  match l with
  | [] => [x]
  | y :: l' =>
      match sort_order (cmp y x) with
      | Gt => x :: l
      | _ => y :: insert_sorted cmp x l'
      end
  end.

Definition array_sort {A : Type} (cmp : A -> A -> num) (l : list A) : list A :=
  fold_left (fun sorted x => insert_sorted cmp x sorted) l [].

Definition getStrategyRecommendation
    (playerCards : list Rank) (dealerUpCard : Rank) (deck : Deck)
    (canDouble canSplit : option bool) : outcome Recommendation :=
  let canDouble := with_default true canDouble in
  let canSplit := with_default false canSplit in
  let playerHand := evaluateHand playerCards in
  let probs := calculateProbabilities playerCards dealerUpCard deck in
  let standEV := stand_ev probs in
  let hitEV :=
    if total playerHand <? 21 then
      let totalRemaining := totalRemaining deck in
      fold_left
        (hit_step playerCards dealerUpCard deck standEV totalRemaining)
        (Object_entries deck) standEV
    else standEV in
  let doubleEV := if canDouble then (hitEV * lit 2)%num else NInf in
  let splitEV := if canSplit then (standEV * lit 0.9)%num else NInf in
  let actions :=
    filter (fun a => negb (strict_eqb (ev a) NInf))
      [ {| action := STAND; ev := standEV |};
        {| action := HIT; ev := hitEV |};
        {| action := DOUBLE; ev := doubleEV |};
        {| action := SPLIT; ev := splitEV |} ] in
  let actions := array_sort (fun a b => (ev b - ev a)%num) actions in
  match actions with
  | [] => Throws TypeError
  | first :: _ =>
      Returns
        {| recommendedAction := action first;
           expectedValues :=
             fold_left (fun acc a => obj_set acc (action a) (ev a)) actions [];
           standEV := standEV;
           hitEV := hitEV |}
  end.

(** ** Bet sizing *)

Record BetRecommendation : Type := mkBetRecommendation {
  kellyFraction : num;
  recommendedBet : num;
  betPercentage : num
}.

Definition calculateOptimalBetForNextRound
    (bankroll winProb lossProb : num) (payout : option num)
    : outcome BetRecommendation :=
  let payout := with_default (lit 1) payout in
  let p := winProb in
  let q := lossProb in
  let b := payout in
  let kelly := ((b * p - q) / b)%num in
  let fractionalKelly := (kelly * lit 0.5)%num in
  let betSize :=
    max (lit 1) (min (lit 500) (floor (fractionalKelly * bankroll)%num)) in
  Returns
    {| kellyFraction := kelly;
       recommendedBet := betSize;
       betPercentage := (betSize / bankroll * lit 100)%num |}.

(** ** The state of the component *)

Module Terminal.

Inductive Target : Type := player | dealer_up | dealer_down | other_target.

(** The state variables that [addCard] reads and sets; an absent dealer
    card (the empty string) is [None]. *)
Record State : Type := mkState {
  deck : Deck;
  playerCards : list Rank;
  dealerUpCard : option Rank;
  dealerDownCard : option Rank
}.

Definition addCard (card : Rank) (target : Target) (st : State)
    : outcome State :=
  if (deck st card <=? 0)%nat then Returns st
  else
    let newDeck := deck_set (deck st) card (deck st card - 1)%nat in
    Returns
      match target with
      | player =>
          {| deck := newDeck; playerCards := playerCards st ++ [card];
             dealerUpCard := dealerUpCard st;
             dealerDownCard := dealerDownCard st |}
      | dealer_up =>
          {| deck := newDeck; playerCards := playerCards st;
             dealerUpCard := Some card;
             dealerDownCard := dealerDownCard st |}
      | dealer_down =>
          {| deck := newDeck; playerCards := playerCards st;
             dealerUpCard := dealerUpCard st;
             dealerDownCard := Some card |}
      | other_target =>
          {| deck := newDeck; playerCards := playerCards st;
             dealerUpCard := dealerUpCard st;
             dealerDownCard := dealerDownCard st |}
      end.

End Terminal.

(** ** Quantities that the properties speak of *)

(** The base rate of a dealer bust for an up card. *)
Definition base_rate (dealerUpCard : Rank) : Q :=
  match dealerUpCard with
  | c2 => 0.35 | c3 => 0.37 | c4 => 0.40 | c5 => 0.42 | c6 => 0.42
  | c7 => 0.26 | c8 => 0.24 | c9 => 0.23
  | c10 | cJ | cQ | cK => 0.23
  | cA => 0.17
  end.

(** The share of the ranks 2 to 6, and of the tens, faces and aces, among
    the cards left. *)
Definition lowFraction (deck : Deck) : num :=
  (of_nat (deck c2 + deck c3 + deck c4 + deck c5 + deck c6)
   / of_nat (totalRemaining deck))%num.

Definition highFraction (deck : Deck) : num :=
  (of_nat (deck c10 + deck cJ + deck cQ + deck cK + deck cA)
   / of_nat (totalRemaining deck))%num.

(** The larger and the smaller of two rationals. *)
Definition Qc_max (a b : Qc) : Qc :=
  match (a ?= b)%Qc with Lt => b | _ => a end.

Definition Qc_min (a b : Qc) : Qc :=
  match (b ?= a)%Qc with Lt => b | _ => a end.

(** The empty shoe. *)
Definition emptyDeck : Deck := fun _ => 0%nat.


(** The sum of a list of numbers. *)
Definition sum_num (l : list num) : num := fold_right add (lit 0) l.

(** What the draw of rank [r] adds to [hitEV]: its weight times the change
    of the expected value against [standEV]. *)
Definition hit_contribution
    (playerCards : list Rank) (dealerUpCard : Rank) (deck : Deck)
    (standEV : num) (r : Rank) : num :=
  let weight := (of_nat (deck r) / of_nat (totalRemaining deck))%num in
  let newCards := playerCards ++ [r] in
  if isBust (evaluateHand newCards) then
    (weight * (lit (-1) - standEV))%num
  else
    let newStandEV :=
      stand_ev (calculateProbabilities newCards dealerUpCard
                  (deck_set deck r (deck r - 1)%nat)) in
    (weight * (newStandEV - standEV))%num.

(** The ranks of which the shoe still holds a card. *)
Definition available (deck : Deck) (r : Rank) : bool := (0 <? deck r)%nat.

(** Which actions are open, their values, and their order of priority. *)
Definition eligible (canDouble canSplit : bool) (a : Action) : bool :=
  match a with
  | STAND | HIT => true
  | DOUBLE => canDouble
  | SPLIT => canSplit
  end.

Definition action_value (standEV hitEV : num) (a : Action) : num :=
  match a with
  | STAND => standEV
  | HIT => hitEV
  | DOUBLE => (hitEV * lit 2)%num
  | SPLIT => (standEV * lit 0.9)%num
  end.


(** Of the current first element and a next one, which one [sort] puts
    first: the next one only if it must come before. *)
Definition pick {A : Type} (cmp : A -> A -> num) (cur x : A) : A :=
  match sort_order (cmp cur x) with Gt => x | _ => cur end.


(** The pieces of [getStrategyRecommendation]: its [hitEV], the four
    candidate actions before the filter, the test of the filter and the
    comparison function of the sort. *)
Definition hit_ev (playerCards : list Rank) (dealerUpCard : Rank) (deck : Deck)
    : num :=
  let standEV :=
    stand_ev (calculateProbabilities playerCards dealerUpCard deck) in
  if total (evaluateHand playerCards) <? 21 then
    fold_left
      (hit_step playerCards dealerUpCard deck standEV (totalRemaining deck))
      (Object_entries deck) standEV
  else standEV.

Definition candidates (standEV hitEV : num) (canDouble canSplit : bool)
    : list ActionEV :=
  [ {| action := STAND; ev := standEV |};
    {| action := HIT; ev := hitEV |};
    {| action := DOUBLE; ev := if canDouble then (hitEV * lit 2)%num else NInf |};
    {| action := SPLIT; ev := if canSplit then (standEV * lit 0.9)%num else NInf |} ].

Definition kept (a : ActionEV) : bool := negb (strict_eqb (ev a) NInf).

Definition by_ev_descending (a b : ActionEV) : num := (ev b - ev a)%num.


(** The actions that pass the filter when the two values are rationals. *)
Definition kept_candidates (s h : Qc) (canDouble canSplit : bool)
    : list ActionEV :=
  {| action := STAND; ev := Fin s |}
  :: {| action := HIT; ev := Fin h |}
  :: (if canDouble then [ {| action := DOUBLE; ev := Fin (h * Q2Qc 2)%Qc |} ]
      else [])
  ++ (if canSplit then [ {| action := SPLIT; ev := Fin (s * Q2Qc 0.9)%Qc |} ]
      else []).

(** A state in which the shoe is full, and one in which it is empty. *)
Definition freshState : Terminal.State :=
  {| Terminal.deck := initializeDeck; Terminal.playerCards := [];
     Terminal.dealerUpCard := None; Terminal.dealerDownCard := None |}.

Definition depletedState : Terminal.State :=
  {| Terminal.deck := emptyDeck; Terminal.playerCards := [c10; c7];
     Terminal.dealerUpCard := Some c6; Terminal.dealerDownCard := None |}.


(** ** The rest of the component *)

(** The all-ones total of a hand: every ace at 1. *)
Definition hard_total (cards : list Rank) : Z :=
  fold_right (fun card sum => getCardValue card false + sum) 0 cards.

(** The ranks that count 10. *)
Definition ten_valued (card : Rank) : bool :=
  match card with c10 | cJ | cQ | cK => true | _ => false end.

Module Component.

Import Terminal.

(** [playerCards.lastIndexOf(card)]: the index of the last card of that
    rank, [-1] if there is none. *)
Fixpoint lastIndexOf (cards : list Rank) (card : Rank) : Z :=
  match cards with
  | [] => -1
  | x :: cards' =>
      let i := lastIndexOf cards' card in
      if i >? -1 then i + 1
      else if Rank_eqb x card then 0 else -1
  end.

(** [cards.splice(index, 1)] on a copy of the array. *)
Definition splice1 (cards : list Rank) (index : nat) : list Rank :=
  firstn index cards ++ skipn (S index) cards.

Definition removeCard (card : Rank) (target : Target) (st : State)
    : outcome State :=
  let newDeck := deck_set (deck st) card (deck st card + 1)%nat in
  Returns
    match target with
    | player =>
        let cardIndex := lastIndexOf (playerCards st) card in
        if cardIndex >? -1 then
          {| deck := newDeck;
             playerCards := splice1 (playerCards st) (Z.to_nat cardIndex);
             dealerUpCard := dealerUpCard st;
             dealerDownCard := dealerDownCard st |}
        else
          {| deck := newDeck; playerCards := playerCards st;
             dealerUpCard := dealerUpCard st;
             dealerDownCard := dealerDownCard st |}
    | dealer_up =>
        {| deck := newDeck; playerCards := playerCards st;
           dealerUpCard := None;
           dealerDownCard := dealerDownCard st |}
    | dealer_down =>
        {| deck := newDeck; playerCards := playerCards st;
           dealerUpCard := dealerUpCard st;
           dealerDownCard := None |}
    | other_target =>
        {| deck := newDeck; playerCards := playerCards st;
           dealerUpCard := dealerUpCard st;
           dealerDownCard := dealerDownCard st |}
    end.

Inductive Phase : Type := betting | playing | finished.

(** The argument of [finishHand]: one of the four strings of its
    [switch], or any other string. *)
Inductive Result : Type := win | blackjack | loss | push | other_result.

Record HistoryEntry : Type := mkHistoryEntry {
  h_playerCards : list Rank;
  h_dealerUpCard : option Rank;
  h_dealerDownCard : option Rank;
  h_result : Result;
  h_bet : num;
  h_payout : num;
  h_bankroll : num
}.

(** All the state variables of the component. *)
Record App : Type := mkApp {
  cards : State;
  bankroll : num;
  currentBet : num;
  gamePhase : Phase;
  gameHistory : list HistoryEntry
}.

(** The initial values of the [useState] calls. *)
Definition initialApp : App :=
  {| cards :=
       {| deck := initializeDeck; playerCards := [];
          dealerUpCard := None; dealerDownCard := None |};
     bankroll := lit 1000;
     currentBet := lit 10;
     gamePhase := betting;
     gameHistory := [] |}.

Definition resetGame (app : App) : App :=
  {| cards :=
       {| deck := initializeDeck; playerCards := [];
          dealerUpCard := None; dealerDownCard := None |};
     bankroll := bankroll app;
     currentBet := currentBet app;
     gamePhase := betting;
     gameHistory := gameHistory app |}.

(** The [switch] of [finishHand]; a string that is none of its cases
    leaves the initial [payout = 0]. *)
Definition payout_of (result : Result) (currentBet : num) : num :=
  match result with
  | win => currentBet
  | blackjack => (currentBet * lit 1.5)%num
  | loss => (- currentBet)%num
  | push => lit 0
  | other_result => lit 0
  end.

Definition finishHand (result : Result) (app : App) : App :=
  let payout := payout_of result (currentBet app) in
  {| cards := cards app;
     bankroll := (bankroll app + payout)%num;
     currentBet := currentBet app;
     gamePhase := finished;
     gameHistory :=
       gameHistory app
       ++ [ {| h_playerCards := playerCards (cards app);
               h_dealerUpCard := dealerUpCard (cards app);
               h_dealerDownCard := dealerDownCard (cards app);
               h_result := result;
               h_bet := currentBet app;
               h_payout := payout;
               h_bankroll := (bankroll app + payout)%num |} ] |}.

Record Analysis : Type := mkAnalysis {
  probs : Probabilities;
  strategy : Recommendation
}.

(** [playerCards[0] === playerCards[1]]; a missing element is
    [undefined]. *)
Definition first_two_equal (cards : list Rank) : bool :=
  match nth_error cards 0, nth_error cards 1 with
  | Some a, Some b => Rank_eqb a b
  | None, None => true
  | _, _ => false
  end.

(** The memo [currentAnalysis]; [None] is [null]. *)
Definition currentAnalysis (st : State) : outcome (option Analysis) :=
  match dealerUpCard st with
  | None => Returns None
  | Some up =>
      if (length (playerCards st) =? 0)%nat then Returns None
      else
        let probs := calculateProbabilities (playerCards st) up (deck st) in
        match
          getStrategyRecommendation (playerCards st) up (deck st)
            (Some (length (playerCards st) =? 2)%nat)
            (Some ((length (playerCards st) =? 2)%nat
                   && first_two_equal (playerCards st)))
        with
        | Returns strategy =>
            Returns (Some {| probs := probs; strategy := strategy |})
        | Throws e => Throws e
        end
  end.

(** The memo [nextRoundBetting]. *)
Definition nextRoundBetting (app : App) : outcome (option BetRecommendation) :=
  match currentAnalysis (cards app) with
  | Returns None => Returns None
  | Returns (Some analysis) =>
      match
        calculateOptimalBetForNextRound (bankroll app)
          (winProb (probs analysis)) (lossProb (probs analysis)) None
      with
      | Returns bet => Returns (Some bet)
      | Throws e => Throws e
      end
  | Throws e => Throws e
  end.

(** [gameHistory.slice(-8)] *)
Definition slice_last8 {A : Type} (l : list A) : list A :=
  skipn (Z.to_nat (Z.max (Z.of_nat (length l) - 8) 0)) l.

Fixpoint map_index {A B : Type} (f : A -> nat -> B) (l : list A) (index : nat)
    : list B :=
  match l with
  | [] => []
  | x :: l' => f x index :: map_index f l' (S index)
  end.

(** The rows of the session log: the number shown after [#], and the
    entry. *)
Definition session_log (gameHistory : list HistoryEntry)
    : list (Z * HistoryEntry) :=
  map_index
    (fun hand index =>
       (Z.of_nat (length gameHistory) - 8 + Z.of_nat index + 1, hand))
    (slice_last8 gameHistory) 0.

(** What the user can do.  A click on a disabled or absent control does
    nothing, and every event is handled on the state that the one before
    has left. *)
Inductive Event : Type :=
| ClickAddPlayer (card : Rank)
| ClickPlayerCard (index : nat)
| ClickAddDealerUp (card : Rank)
| ClickDealerUp
| ClickNewHand
| ClickResetCards
| ClickFinish (result : Result)
| SlideBet (value : Z).

Definition value_of {A : Type} (o : outcome A) (otherwise : A) : A :=
  match o with Returns a => a | Throws _ => otherwise end.

Definition with_cards (app : App) (st : State) : App :=
  {| cards := st; bankroll := bankroll app; currentBet := currentBet app;
     gamePhase := gamePhase app; gameHistory := gameHistory app |}.

(** The handler of an event, with the conditions under which the control
    is shown and enabled. *)
Definition handle (app : App) (ev : Event) : App :=
  let st := cards app in
  match ev with
  | ClickAddPlayer card =>
      if (deck st card =? 0)%nat then app
      else with_cards app (value_of (addCard card player st) st)
  | ClickPlayerCard index =>
      match nth_error (playerCards st) index with
      | Some card => with_cards app (value_of (removeCard card player st) st)
      | None => app
      end
  | ClickAddDealerUp card =>
      match dealerUpCard st with
      | None =>
          if (deck st card =? 0)%nat then app
          else with_cards app (value_of (addCard card dealer_up st) st)
      | Some _ => app
      end
  | ClickDealerUp =>
      match dealerUpCard st with
      | Some card => with_cards app (value_of (removeCard card dealer_up st) st)
      | None => app
      end
  | ClickNewHand => resetGame app
  | ClickResetCards =>
      {| cards := st; bankroll := bankroll app; currentBet := currentBet app;
         gamePhase := betting; gameHistory := gameHistory app |}
  | ClickFinish result =>
      match result, currentAnalysis st with
      | other_result, _ => app
      | _, Returns (Some _) => finishHand result app
      | _, _ => app
      end
  | SlideBet value =>
      if (1 <=? value) && (value <=? 500) then
        {| cards := st; bankroll := bankroll app; currentBet := of_Z value;
           gamePhase := gamePhase app; gameHistory := gameHistory app |}
      else app
  end.

Definition run (events : list Event) (app : App) : App :=
  fold_left handle events app.

End Component.

(** How many cards of a rank are on the table. *)
Definition on_table (st : Terminal.State) (r : Rank) : nat :=
  (count_occ Rank_eq_dec (Terminal.playerCards st) r
   + match Terminal.dealerUpCard st with
     | Some up => if Rank_eq_dec up r then 1 else 0
     | None => 0
     end)%nat.

(** What holds of the cards after every sequence of events: each rank has
    24 cards between the shoe and the table, and no dealer down card is
    ever set. *)
Definition cards_conserved (st : Terminal.State) : Prop :=
  (forall r : Rank, (Terminal.deck st r + on_table st r = 24)%nat)
  /\ Terminal.dealerDownCard st = None.

(** A bet that the slider can give. *)
Definition slider_bet (x : num) : Prop :=
  exists n : Z, 1 <= n <= 500 /\ x = of_Z n.

(** What holds of the money after every sequence of events. *)
Definition books_balanced (app : Component.App) : Prop :=
  Component.bankroll app
  = (lit 1000
     + sum_num (map Component.h_payout (Component.gameHistory app)))%num
  /\ last (map Component.h_bankroll (Component.gameHistory app)) (lit 1000)
     = Component.bankroll app
  /\ slider_bet (Component.currentBet app)
  /\ Component.gamePhase app <> Component.playing
  /\ (exists q : Qc, Component.bankroll app = Fin q)
  /\ forall e : Component.HistoryEntry,
       In e (Component.gameHistory app) ->
       Component.h_playerCards e <> []
       /\ Component.h_dealerUpCard e <> None
       /\ Component.h_result e <> Component.other_result
       /\ slider_bet (Component.h_bet e)
       /\ Component.h_payout e
          = Component.payout_of (Component.h_result e) (Component.h_bet e).

(** A logged hand, and an application state with a hand on the table. *)
Definition sampleEntry : Component.HistoryEntry :=
  {| Component.h_playerCards := [c10; c7];
     Component.h_dealerUpCard := Some c6;
     Component.h_dealerDownCard := None;
     Component.h_result := Component.win;
     Component.h_bet := lit 10;
     Component.h_payout := lit 10;
     Component.h_bankroll := lit 1010 |}.

Definition tableState (hand : list Rank) (up : Rank) : Terminal.State :=
  {| Terminal.deck := initializeDeck; Terminal.playerCards := hand;
     Terminal.dealerUpCard := Some up; Terminal.dealerDownCard := None |}.

Definition tableApp (hand : list Rank) (up : Rank) (bankroll bet : num)
    : Component.App :=
  {| Component.cards := tableState hand up;
     Component.bankroll := bankroll;
     Component.currentBet := bet;
     Component.gamePhase := Component.betting;
     Component.gameHistory := [] |}.

(** ** Numbers in binary64 *)

(** The second reading of a JavaScript number: the binary64 value
    itself, with the operations of IEEE 754 in round-to-nearest-even
    (the primitive floats).  The functions of the engine that compute on
    fractions are embedded a second time over this reading; counts and
    hand totals are the integers and naturals of the first embedding. *)

Module B64.

#[local] Open Scope float_scope.

(** An integer of the source as a number: the nearest binary64 value,
    which is the integer itself up to [2^53]. *)
Definition of_Z (z : Z) : float :=
  SF2Prim (binary_normalize prec emax z 0 false).

(** A count of cards, or a sum of counts, as a number.  The source adds
    the counts as numbers; below [2^53] these sums are exact. *)
Definition of_nat (n : nat) : float := of_Z (Z.of_nat n).

(** [Math.floor]: a number whose exponent is not negative is an integer
    already; otherwise the mantissa is shifted, and a negative number
    that is not an integer goes one further down. *)
Definition floor (x : float) : float :=
  match Prim2SF x with
  | S754_finite s m e =>
      if (0 <=? e)%Z then x
      else
        let d := Z.shiftr (Zpos m) (- e) in
        if s then
          if (Z.shiftl d (- e) =? Zpos m)%Z then x else of_Z (- (d + 1))
        else of_Z d
  | _ => x
  end.

(** [Math.max(x, y)] and [Math.min(x, y)]: [NaN] if an argument is, and
    [+0] above [-0]. *)
Definition max (x y : float) : float :=
  if is_nan x || is_nan y then nan
  else if x <? y then y
  else if y <? x then x
  else if get_sign x then y else x.

Definition min (x y : float) : float :=
  if is_nan x || is_nan y then nan
  else if x <? y then x
  else if y <? x then y
  else if get_sign x then x else y.

(** Truthiness of a number, for [x || d]: [0], [-0] and [NaN] are falsy. *)
Definition truthy (x : float) : bool := negb (is_zero x || is_nan x).

(** [lo <= x && x <= hi] *)
Definition between (lo hi x : float) : bool := (lo <=? x) && (x <=? hi).

Record Probabilities : Type := mkProbabilities {
  winProb : float;
  lossProb : float;
  pushProb : float;
  dealerBustProb : float
}.

Definition dealerBustProbabilities (v : Z) : option float :=
  match v with
  | 2%Z => Some 0.35 | 3%Z => Some 0.37 | 4%Z => Some 0.40
  | 5%Z => Some 0.42 | 6%Z => Some 0.42 | 7%Z => Some 0.26
  | 8%Z => Some 0.24 | 9%Z => Some 0.23 | 10%Z => Some 0.23
  | 11%Z => Some 0.17
  | _ => None
  end.

Definition or_else (o : option float) (d : float) : float :=
  match o with
  | Some x => if truthy x then x else d
  | None => d
  end.

Definition calculateProbabilities
    (playerCards : list Rank) (dealerUpCard : Rank) (deck : Deck)
    : Probabilities :=
  let totalRemaining := totalRemaining deck in
  if (totalRemaining =? 0)%nat then
    {| winProb := 0; lossProb := 1; pushProb := 0; dealerBustProb := 0 |}
  else
    let playerHand := evaluateHand playerCards in
    let dealerCardValue := getCardValue dealerUpCard true in
    let dealerBustProb :=
      or_else (dealerBustProbabilities dealerCardValue) 0.23 in
    let lowCards :=
      of_nat (deck c2 + deck c3 + deck c4 + deck c5 + deck c6)
      / of_nat totalRemaining in
    let highCards :=
      of_nat (deck c10 + deck cJ + deck cQ + deck cK + deck cA)
      / of_nat totalRemaining in
    let dealerBustProb := dealerBustProb + (lowCards - highCards) * 0.1 in
    let dealerBustProb := max 0.1 (min 0.6 dealerBustProb) in
    if isBust playerHand then
      {| winProb := 0; lossProb := 1; pushProb := 0;
         dealerBustProb := dealerBustProb |}
    else if isBlackjack playerHand then
      let dealerBlackjackProb :=
        if Rank_eqb dealerUpCard cA then 0.31
        else if (dealerCardValue =? 10)%Z then 0.08 else 0 in
      {| winProb := 1 - dealerBlackjackProb;
         lossProb := 0;
         pushProb := dealerBlackjackProb;
         dealerBustProb := dealerBustProb |}
    else
      let playerTotal := total playerHand in
      let winProb :=
        if (playerTotal >=? 17)%Z then
          dealerBustProb + (1 - dealerBustProb) * 0.4
        else if (playerTotal >=? 12)%Z then
          dealerBustProb + (1 - dealerBustProb) * 0.2
        else dealerBustProb * 0.5 in
      let pushProb := 0.1 in
      let lossProb := 1 - winProb - pushProb in
      {| winProb := winProb; lossProb := lossProb; pushProb := pushProb;
         dealerBustProb := dealerBustProb |}.

Record ActionEV : Type := mkActionEV {
  action : Action;
  ev : float
}.

Definition EVObject : Type := list (Action * float).

Fixpoint obj_set (acc : EVObject) (k : Action) (v : float) : EVObject :=
  match acc with
  | [] => [(k, v)]
  | (k', v') :: acc' =>
      if Action_eq_dec k' k then (k, v) :: acc'
      else (k', v') :: obj_set acc' k v
  end.

Record Recommendation : Type := mkRecommendation {
  recommendedAction : Action;
  expectedValues : EVObject;
  standEV : float;
  hitEV : float
}.

(** [probs.winProb * 1 + probs.lossProb * (-1) + probs.pushProb * 0] *)
Definition stand_ev (probs : Probabilities) : float :=
  winProb probs * 1 + lossProb probs * (-1) + pushProb probs * 0.

(** The body of [for (const [card, count] of Object.entries(deck))]. *)
Definition hit_step
    (playerCards : list Rank) (dealerUpCard : Rank) (deck : Deck)
    (standEV : float) (totalRemaining : nat)
    (hitEV : float) (entry : Rank * nat) : float :=
  let '(card, count) := entry in
  if (0 <? count)%nat then
    let newCards := playerCards ++ [card] in
    let newHand := evaluateHand newCards in
    let cardProb := of_nat count / of_nat totalRemaining in
    if isBust newHand then
      hitEV + cardProb * (-1 - standEV)
    else
      let newProbs :=
        calculateProbabilities newCards dealerUpCard
          (deck_set deck card (count - 1)%nat) in
      let newStandEV := stand_ev newProbs in
      hitEV + cardProb * (newStandEV - standEV)
  else hitEV.

(** The order that the result of a comparison function gives to [sort]. *)
Definition sort_order (v : float) : comparison :=
  if 0 <? v then Gt else if v <? 0 then Lt else Eq.

Fixpoint insert_sorted {A : Type} (cmp : A -> A -> float) (x : A) (l : list A)
    : list A :=
  match l with
  | [] => [x]
  | y :: l' =>
      match sort_order (cmp y x) with
      | Gt => x :: l
      | _ => y :: insert_sorted cmp x l'
      end
  end.

Definition array_sort {A : Type} (cmp : A -> A -> float) (l : list A)
    : list A :=
  fold_left (fun sorted x => insert_sorted cmp x sorted) l [].

(** The value of the variable [hitEV] when the loop is over. *)
Definition hit_ev (playerCards : list Rank) (dealerUpCard : Rank) (deck : Deck)
    : float :=
  let standEV :=
    stand_ev (calculateProbabilities playerCards dealerUpCard deck) in
  if (total (evaluateHand playerCards) <? 21)%Z then
    fold_left
      (hit_step playerCards dealerUpCard deck standEV (totalRemaining deck))
      (Object_entries deck) standEV
  else standEV.

Definition getStrategyRecommendation
    (playerCards : list Rank) (dealerUpCard : Rank) (deck : Deck)
    (canDouble canSplit : option bool) : outcome Recommendation :=
  let canDouble := with_default true canDouble in
  let canSplit := with_default false canSplit in
  let playerHand := evaluateHand playerCards in
  let probs := calculateProbabilities playerCards dealerUpCard deck in
  let standEV := stand_ev probs in
  let hitEV :=
    if (total playerHand <? 21)%Z then
      let totalRemaining := totalRemaining deck in
      fold_left
        (hit_step playerCards dealerUpCard deck standEV totalRemaining)
        (Object_entries deck) standEV
    else standEV in
  let doubleEV := if canDouble then hitEV * 2 else neg_infinity in
  let splitEV := if canSplit then standEV * 0.9 else neg_infinity in
  let actions :=
    filter (fun a => negb (ev a =? neg_infinity))
      [ {| action := STAND; ev := standEV |};
        {| action := HIT; ev := hitEV |};
        {| action := DOUBLE; ev := doubleEV |};
        {| action := SPLIT; ev := splitEV |} ] in
  let actions := array_sort (fun a b => ev b - ev a) actions in
  match actions with
  | [] => Throws TypeError
  | first :: _ =>
      Returns
        {| recommendedAction := action first;
           expectedValues :=
             fold_left (fun acc a => obj_set acc (action a) (ev a)) actions [];
           standEV := standEV;
           hitEV := hitEV |}
  end.

Record BetRecommendation : Type := mkBetRecommendation {
  kellyFraction : float;
  recommendedBet : float;
  betPercentage : float
}.

Definition calculateOptimalBetForNextRound
    (bankroll winProb lossProb : float) (payout : option float)
    : outcome BetRecommendation :=
  let payout := with_default 1 payout in
  let p := winProb in
  let q := lossProb in
  let b := payout in
  let kelly := (b * p - q) / b in
  let fractionalKelly := kelly * 0.5 in
  let betSize := max 1 (min 500 (floor (fractionalKelly * bankroll))) in
  Returns
    {| kellyFraction := kelly;
       recommendedBet := betSize;
       betPercentage := betSize / bankroll * 100 |}.

(** What the draw of rank [r] adds to [hitEV]. *)
Definition hit_contribution
    (playerCards : list Rank) (dealerUpCard : Rank) (deck : Deck)
    (standEV : float) (r : Rank) : float :=
  let weight := of_nat (deck r) / of_nat (totalRemaining deck) in
  let newCards := playerCards ++ [r] in
  if isBust (evaluateHand newCards) then weight * (-1 - standEV)
  else
    let newStandEV :=
      stand_ev (calculateProbabilities newCards dealerUpCard
                  (deck_set deck r (deck r - 1)%nat)) in
    weight * (newStandEV - standEV).

(** The sum of a list of numbers, from the left. *)
Definition sum_float (l : list float) : float := fold_left PrimFloat.add l 0.

(** The rational that a number stands for; [NaN] and the infinities
    stand for none. *)
Definition to_Q (x : float) : option Q :=
  match Prim2SF x with
  | S754_zero _ => Some 0%Q
  | S754_finite s m e =>
      let n := if s then Zneg m else Zpos m in
      Some (if (0 <=? e)%Z then inject_Z (n * 2 ^ e)
            else (n # Z.to_pos (2 ^ (- e))))%Q
  | _ => None
  end.

(** The sum of a list of numbers without any rounding. *)
Definition sum_Q (l : list float) : option Q :=
  fold_left
    (fun acc x =>
       match acc, to_Q x with
       | Some a, Some b => Some (Qred (a + b))
       | _, _ => None
       end)
    l (Some 0%Q).

End B64.

(** A shoe with four threes and one king. *)
Definition shortDeck : Deck :=
  deck_set (deck_set emptyDeck c3 4%nat) cK 1%nat.

(** * Properties *)

(** ** Hand evaluation *)

Section HandEvaluation.

Lemma count_card_fold (cards : list Rank) : forall (t : Z) (a : nat),
  fold_left count_card cards (t, a)
  = (t + raw_total cards, (a + count_aces cards)%nat).
Proof.
  unfold count_aces.
  induction cards as [|card cards IH]; intros t a; simpl.
  - apply (f_equal2 pair); lia.
  - unfold Rank_eqb.
    destruct (Rank_eq_dec card cA) as [->|Hne]; rewrite IH.
    + change (getCardValue cA true) with 11. apply (f_equal2 pair); lia.
    + apply (f_equal2 pair); lia.
Qed.

(** What the [while] loop does: it demotes [k] aces, each of them only
    because the total was above 21, and stops when the total is at most
    21 or no ace is left. *)
Lemma adjust_aces_spec (aces : nat) : forall (t : Z),
  exists k : nat,
    (k <= aces)%nat
    /\ adjust_aces t aces = (t - 10 * Z.of_nat k, (aces - k)%nat)
    /\ (forall j : nat, (j < k)%nat -> t - 10 * Z.of_nat j > 21)
    /\ (t - 10 * Z.of_nat k <= 21 \/ k = aces).
Proof.
  induction aces as [|aces IH]; intros t.
  - exists 0%nat. simpl. repeat split; try lia. apply (f_equal2 pair); lia.
  - cbn [adjust_aces]. destruct (t >? 21) eqn:Hgt.
    + destruct (IH (t - 10)) as (k & Hk & Heq & Hall & Hstop).
      exists (S k). repeat split.
      * lia.
      * rewrite Heq. apply (f_equal2 pair); lia.
      * intros [|j] Hj; [lia|].
        specialize (Hall j ltac:(lia)). lia.
      * destruct Hstop; [left | right]; lia.
    + exists 0%nat. repeat split; try lia.
      apply (f_equal2 pair); lia.
Qed.

Lemma evaluateHand_unfold (cards : list Rank) :
  evaluateHand cards
  = let '(t, a) := adjust_aces (raw_total cards) (count_aces cards) in
    {| total := t;
       isSoft := (0 <? a)%nat && (t <=? 21);
       isBlackjack := (length cards =? 2)%nat && (t =? 21);
       isBust := t >? 21 |}.
Proof.
  unfold evaluateHand. rewrite count_card_fold. reflexivity.
Qed.

Lemma raw_total_perm (l l' : list Rank) :
  Permutation l l' -> raw_total l = raw_total l'.
Proof.
  induction 1; simpl; lia.
Qed.

Lemma count_aces_perm (l l' : list Rank) :
  Permutation l l' -> count_aces l = count_aces l'.
Proof.
  intros H. unfold count_aces.
  induction H; simpl; repeat destruct (Rank_eq_dec _ _); congruence.
Qed.

Lemma evaluateHand_perm (l l' : list Rank) :
  Permutation l l' -> evaluateHand l = evaluateHand l'.
Proof.
  intros H. rewrite !evaluateHand_unfold.
  rewrite (raw_total_perm _ _ H), (count_aces_perm _ _ H),
    (Permutation_length H).
  reflexivity.
Qed.

End HandEvaluation.

(** C8.  [evaluateHand] counts every ace as 11 and then takes 10 off for
    each demoted ace: the number [k] of demoted aces is at most the number
    of aces, every demotion happened while the total was above 21, and the
    loop stopped with a total of at most 21 or with no flexible ace left;
    the hand is soft when a flexible ace is left and the total is at most
    21, and bust when the total is above 21.  The empty hand has total 0
    and is neither bust nor a blackjack, and the four sample hands
    A-A, 10-K, A-K and K-Q-5 evaluate as listed. *)
Theorem C8_evaluateHand_aces :
  (forall cards : list Rank,
     exists k : nat,
       (k <= count_aces cards)%nat
       /\ total (evaluateHand cards) = raw_total cards - 10 * Z.of_nat k
       /\ (forall j : nat, (j < k)%nat -> raw_total cards - 10 * Z.of_nat j > 21)
       /\ (total (evaluateHand cards) <= 21 \/ k = count_aces cards)
       /\ isSoft (evaluateHand cards)
          = (k <? count_aces cards)%nat && (total (evaluateHand cards) <=? 21)
       /\ isBust (evaluateHand cards) = (total (evaluateHand cards) >? 21))
  /\ evaluateHand []
     = {| total := 0; isSoft := false; isBlackjack := false; isBust := false |}
  /\ evaluateHand [cA; cA]
     = {| total := 12; isSoft := true; isBlackjack := false; isBust := false |}
  /\ (total (evaluateHand [c10; cK]) = 20
      /\ isBlackjack (evaluateHand [c10; cK]) = false)
  /\ (total (evaluateHand [cA; cK]) = 21
      /\ isBlackjack (evaluateHand [cA; cK]) = true)
  /\ (total (evaluateHand [cK; cQ; c5]) = 25
      /\ isBust (evaluateHand [cK; cQ; c5]) = true
      /\ isSoft (evaluateHand [cK; cQ; c5]) = false).
Proof.
  split; [| repeat split; reflexivity].
  intros cards. rewrite evaluateHand_unfold.
  destruct (adjust_aces_spec (count_aces cards) (raw_total cards))
    as (k & Hk & Heq & Hall & Hstop).
  exists k. rewrite Heq. cbn [total isSoft isBust].
  repeat split; auto.
  f_equal.
  destruct (k <? count_aces cards)%nat eqn:E1.
  - apply Nat.ltb_lt in E1. apply Nat.ltb_lt. lia.
  - apply Nat.ltb_ge in E1. apply Nat.ltb_ge. lia.
Qed.

(** C9.  The total of a hand does not depend on the order of its cards:
    two hands that are permutations of each other have the same total. *)
Theorem C9_total_permutation (cards cards' : list Rank) :
  Permutation cards cards' ->
  total (evaluateHand cards) = total (evaluateHand cards').
Proof.
  intros H. rewrite (evaluateHand_perm _ _ H). reflexivity.
Qed.

Lemma C9_total_permutation_witness :
  Permutation [cA; cK; c5] [c5; cA; cK]
  /\ total (evaluateHand [cA; cK; c5]) = total (evaluateHand [c5; cA; cK]).
Proof.
  assert (H : Permutation [cA; cK; c5] [c5; cA; cK]).
  { apply Permutation_sym. apply (Permutation_cons_app [cA; cK] [] c5).
    apply Permutation_refl. }
  split; [exact H | apply (C9_total_permutation _ _ H)].
Defined.

(** ** Arithmetic on numbers *)

(** From canonical rationals to [Q], where [lra] decides. *)
Ltac qc2q :=
  unfold Qcle, Qclt, Qcdiv, Qcminus, Qcplus, Qcopp, Qcmult, Qcinv, Q2Qc in *;
  cbn [this] in *; rewrite ?Qred_correct in *.

(** The result of a comparison, as an order fact. *)
Ltac qc_cmp H :=
  first [ apply Qclt_alt in H | apply Qcgt_alt in H | apply Qceq_alt in H ].

Section NumFacts.

Local Open Scope Qc_scope.

Lemma max_Fin (a b : Qc) : max (Fin a) (Fin b) = Fin (Qc_max a b).
Proof. unfold max, ltb, Qc_max. destruct (a ?= b); reflexivity. Qed.

Lemma min_Fin (a b : Qc) : min (Fin a) (Fin b) = Fin (Qc_min a b).
Proof. unfold min, ltb, Qc_min. destruct (b ?= a); reflexivity. Qed.

Lemma Qc_clamp_range (lo hi x : Qc) :
  lo <= hi -> lo <= Qc_max lo (Qc_min hi x) /\ Qc_max lo (Qc_min hi x) <= hi.
Proof.
  intros Hlh. unfold Qc_max, Qc_min.
  destruct (x ?= hi) eqn:E1; destruct (lo ?= _) eqn:E2;
    qc_cmp E1; qc_cmp E2; subst; qc2q; split; lra.
Qed.



Lemma Qc_of_nat_neq_0 (n : nat) :
  n <> 0%nat -> Qc_eq_bool (Q2Qc (inject_Z (Z.of_nat n))) 0 = false.
Proof.
  intros Hn. destruct (Qc_eq_bool _ _) eqn:E; [|reflexivity].
  apply Qc_eq_bool_correct in E. apply Q2Qc_eq_iff in E.
  unfold Qeq in E. simpl in E. lia.
Qed.

Lemma div_of_nat (n t : nat) :
  t <> 0%nat ->
  (of_nat n / of_nat t)%num
  = Fin (Q2Qc (inject_Z (Z.of_nat n)) / Q2Qc (inject_Z (Z.of_nat t))).
Proof.
  intros Ht. unfold div, of_nat, of_Z. rewrite (Qc_of_nat_neq_0 _ Ht).
  reflexivity.
Qed.

Lemma add_comm (x y : num) : (x + y)%num = (y + x)%num.
Proof.
  destruct x, y; simpl; try reflexivity. f_equal. apply Qcplus_comm.
Qed.

Lemma add_assoc (x y z : num) : (x + (y + z))%num = (x + y + z)%num.
Proof.
  destruct x, y, z; simpl; try reflexivity. f_equal. apply Qcplus_assoc.
Qed.

Lemma add_0_r (x : num) : (x + lit 0)%num = x.
Proof.
  destruct x; simpl; try reflexivity. f_equal. apply Qcplus_0_r.
Qed.

End NumFacts.

(** ** Probability estimation *)

(** Splits a conjunction of closed facts and computes each of them. *)
Ltac by_computation :=
  repeat match goal with |- _ /\ _ => split end; vm_compute; reflexivity.

(** Closes a goal made of equations and inequalities between rationals
    that are linear in the variables. *)
Ltac qc_arith :=
  repeat match goal with |- _ /\ _ => split end;
  try apply Qc_is_canon; qc2q; lra.

Section Estimation.

Local Open Scope Qc_scope.

Lemma base_rate_lookup (dealerUpCard : Rank) :
  or_else (dealerBustProbabilities (getCardValue dealerUpCard true)) (lit 0.23)
  = lit (base_rate dealerUpCard).
Proof. destruct dealerUpCard; reflexivity. Qed.

Lemma totalRemaining_eqb (deck : Deck) :
  (totalRemaining deck =? 0)%nat = false <-> (0 < totalRemaining deck)%nat.
Proof. rewrite Nat.eqb_neq. lia. Qed.

(** With a card left in the shoe, the bust probability of the dealer is
    a rational between 0.1 and 0.6, the clamped adjusted base rate. *)
Lemma dealerBust_clamped (dealerUpCard : Rank) (deck : Deck) :
  (0 < totalRemaining deck)%nat ->
  exists d : Qc,
    max (lit 0.1)
      (min (lit 0.6)
         (lit (base_rate dealerUpCard)
          + (lowFraction deck - highFraction deck) * lit 0.1)%num)
    = Fin d
    /\ Q2Qc 0.1 <= d /\ d <= Q2Qc 0.6.
Proof.
  intros Ht. unfold lowFraction, highFraction.
  rewrite !div_of_nat by lia.
  unfold lit. cbn [add sub mul neg]. rewrite min_Fin, max_Fin.
  eexists. split; [reflexivity|].
  apply Qc_clamp_range. qc_arith.
Qed.

Lemma calculateProbabilities_positive
    (playerCards : list Rank) (dealerUpCard : Rank) (deck : Deck) :
  (0 < totalRemaining deck)%nat ->
  calculateProbabilities playerCards dealerUpCard deck
  = let playerHand := evaluateHand playerCards in
    let dealerBustProb :=
      max (lit 0.1)
        (min (lit 0.6)
           (lit (base_rate dealerUpCard)
            + (lowFraction deck - highFraction deck) * lit 0.1)%num) in
    if isBust playerHand then
      {| winProb := lit 0; lossProb := lit 1; pushProb := lit 0;
         dealerBustProb := dealerBustProb |}
    else if isBlackjack playerHand then
      let dealerBlackjackProb :=
        if Rank_eqb dealerUpCard cA then lit 0.31
        else if (getCardValue dealerUpCard true =? 10)%Z then lit 0.08
             else lit 0 in
      {| winProb := (lit 1 - dealerBlackjackProb)%num;
         lossProb := lit 0;
         pushProb := dealerBlackjackProb;
         dealerBustProb := dealerBustProb |}
    else
      let winProb :=
        if (total playerHand >=? 17)%Z then
          (dealerBustProb + (lit 1 - dealerBustProb) * lit 0.4)%num
        else if (total playerHand >=? 12)%Z then
          (dealerBustProb + (lit 1 - dealerBustProb) * lit 0.2)%num
        else (dealerBustProb * lit 0.5)%num in
      {| winProb := winProb;
         lossProb := (lit 1 - winProb - lit 0.1)%num;
         pushProb := lit 0.1;
         dealerBustProb := dealerBustProb |}.
Proof.
  intros Ht. unfold calculateProbabilities.
  apply totalRemaining_eqb in Ht. rewrite Ht.
  rewrite base_rate_lookup. reflexivity.
Qed.

(** Every estimate is made of four rationals; the first three add up to 1
    and each lies between 0 and 1. *)
Lemma calculateProbabilities_shape
    (playerCards : list Rank) (dealerUpCard : Rank) (deck : Deck) :
  exists w l p d : Qc,
    calculateProbabilities playerCards dealerUpCard deck
    = {| winProb := Fin w; lossProb := Fin l; pushProb := Fin p;
         dealerBustProb := Fin d |}
    /\ w + l + p = 1
    /\ (0 <= w /\ w <= 1) /\ (0 <= l /\ l <= 1) /\ (0 <= p /\ p <= 1).
Proof.
  destruct (Nat.eq_dec (totalRemaining deck) 0) as [Hz|Hnz].
  - unfold calculateProbabilities. rewrite Hz. cbn [Nat.eqb]. unfold lit.
    do 4 eexists. split; [reflexivity|]. qc_arith.
  - rewrite calculateProbabilities_positive by lia. cbv zeta.
    destruct (dealerBust_clamped dealerUpCard deck ltac:(lia))
      as (d & -> & Hlo & Hhi).
    destruct (isBust _).
    { unfold lit. do 4 eexists. split; [reflexivity|]. qc_arith. }
    destruct (isBlackjack _).
    { destruct (Rank_eqb dealerUpCard cA);
        [| destruct (getCardValue dealerUpCard true =? 10)%Z ];
        unfold lit; cbn [add sub mul neg];
        do 4 eexists; (split; [reflexivity|]); qc_arith. }
    destruct (total _ >=? 17)%Z; [| destruct (total _ >=? 12)%Z ];
      unfold lit; cbn [add sub mul neg];
      do 4 eexists; (split; [reflexivity|]); qc_arith.
Qed.

End Estimation.

(** C6.  On a shoe with no card left, the estimate is exactly
    win 0, loss 1, push 0, dealer bust 0, for every hand and up card. *)
Theorem C6_estimate_empty_shoe
    (playerCards : list Rank) (dealerUpCard : Rank) (deck : Deck) :
  totalRemaining deck = 0%nat ->
  calculateProbabilities playerCards dealerUpCard deck
  = {| winProb := lit 0; lossProb := lit 1; pushProb := lit 0;
       dealerBustProb := lit 0 |}.
Proof.
  intros Hz. unfold calculateProbabilities. rewrite Hz. reflexivity.
Qed.

Lemma C6_estimate_empty_shoe_witness :
  totalRemaining emptyDeck = 0%nat
  /\ calculateProbabilities [c10; c7] c6 emptyDeck
     = {| winProb := lit 0; lossProb := lit 1; pushProb := lit 0;
          dealerBustProb := lit 0 |}.
Proof.
  split; [reflexivity|].
  apply (C6_estimate_empty_shoe [c10; c7] c6 emptyDeck). reflexivity.
Defined.







(** ** Expected values *)

Section ExpectedValues.

Local Open Scope Qc_scope.

Variables (playerCards : list Rank) (dealerUpCard : Rank) (deck : Deck).

Lemma stand_ev_Fin (cards : list Rank) (up : Rank) (d : Deck) :
  exists w l : Qc,
    winProb (calculateProbabilities cards up d) = Fin w
    /\ lossProb (calculateProbabilities cards up d) = Fin l
    /\ stand_ev (calculateProbabilities cards up d) = Fin (w - l).
Proof.
  destruct (calculateProbabilities_shape cards up d)
    as (w & l & p & dd & -> & _).
  exists w, l. cbn [winProb lossProb]. repeat split.
  unfold stand_ev, lit. cbn [winProb lossProb pushProb add mul].
  f_equal. qc_arith.
Qed.

Lemma deck_le_total (r : Rank) : (deck r <= totalRemaining deck)%nat.
Proof.
  unfold totalRemaining, Object_values, deck_keys.
  cbn [map fold_left]. destruct r; lia.
Qed.

(** One turn of the loop adds the contribution of its rank, if the shoe
    still holds a card of it. *)
Lemma hit_step_contribution (standEV acc : num) (r : Rank) :
  hit_step playerCards dealerUpCard deck standEV (totalRemaining deck)
    acc (r, deck r)
  = (acc + (if available deck r
            then hit_contribution playerCards dealerUpCard deck standEV r
            else lit 0))%num.
Proof.
  unfold hit_step, hit_contribution, available.
  destruct (0 <? deck r)%nat.
  - destruct (isBust _); reflexivity.
  - symmetry. apply add_0_r.
Qed.

Lemma hit_fold_sum (standEV : num) (rs : list Rank) : forall acc : num,
  fold_left
    (hit_step playerCards dealerUpCard deck standEV (totalRemaining deck))
    (map (fun r => (r, deck r)) rs) acc
  = (acc
     + sum_num
         (map (fun r =>
                 if available deck r
                 then hit_contribution playerCards dealerUpCard deck standEV r
                 else lit 0) rs))%num.
Proof.
  unfold sum_num.
  induction rs as [|r rs IH]; intros acc; cbn [map fold_left fold_right].
  - symmetry. apply add_0_r.
  - rewrite hit_step_contribution, IH. symmetry. apply add_assoc.
Qed.

Lemma sum_num_perm (l l' : list num) :
  Permutation l l' -> sum_num l = sum_num l'.
Proof.
  unfold sum_num. induction 1; cbn [fold_right].
  - reflexivity.
  - congruence.
  - rewrite !add_assoc. f_equal. apply add_comm.
  - congruence.
Qed.

Lemma sum_num_filter (f : Rank -> num) (p : Rank -> bool) (rs : list Rank) :
  sum_num (map (fun r => if p r then f r else lit 0) rs)
  = sum_num (map f (filter p rs)).
Proof.
  unfold sum_num.
  induction rs as [|r rs IH]; [reflexivity|].
  cbn [map filter fold_right].
  destruct (p r); cbn [map fold_right]; rewrite IH.
  - reflexivity.
  - rewrite add_comm. apply add_0_r.
Qed.

Lemma deck_keys_perm : Permutation deck_keys CARD_VALUES.
Proof.
  apply Permutation_sym.
  apply (Permutation_cons_app [c2; c3; c4; c5; c6; c7; c8; c9; c10]
           [cJ; cQ; cK] cA).
  apply Permutation_refl.
Qed.

(** The loop over the entries of the deck, as the sum of the
    contributions of the ranks that are still available. *)
Lemma hit_loop_sum (standEV : num) :
  fold_left
    (hit_step playerCards dealerUpCard deck standEV (totalRemaining deck))
    (Object_entries deck) standEV
  = (standEV
     + sum_num
         (map (hit_contribution playerCards dealerUpCard deck standEV)
            (filter (available deck) CARD_VALUES)))%num.
Proof.
  unfold Object_entries. rewrite hit_fold_sum. f_equal.
  rewrite <- sum_num_filter. apply sum_num_perm.
  apply Permutation_map. apply deck_keys_perm.
Qed.

Lemma hit_contribution_Fin (s : Qc) (r : Rank) :
  available deck r = true ->
  exists c : Qc,
    hit_contribution playerCards dealerUpCard deck (Fin s) r = Fin c.
Proof.
  unfold available. intros Hr. apply Nat.ltb_lt in Hr.
  pose proof (deck_le_total r) as Hle.
  unfold hit_contribution. cbv zeta. rewrite div_of_nat by lia.
  destruct (isBust _).
  - unfold lit. cbn [sub add neg mul]. eexists. reflexivity.
  - destruct (stand_ev_Fin (playerCards ++ [r]) dealerUpCard
                (deck_set deck r (deck r - 1)%nat)) as (w & l & _ & _ & ->).
    cbn [sub add neg mul]. eexists. reflexivity.
Qed.

Lemma hit_sum_Fin (s : Qc) (rs : list Rank) :
  exists c : Qc,
    sum_num (map (hit_contribution playerCards dealerUpCard deck (Fin s))
               (filter (available deck) rs)) = Fin c.
Proof.
  unfold sum_num.
  induction rs as [|r rs (c & IH)].
  - eexists. reflexivity.
  - cbn [filter]. destruct (available deck r) eqn:Hr.
    + destruct (hit_contribution_Fin s r Hr) as (c' & Hc').
      cbn [map fold_right]. rewrite IH, Hc'.
      eexists. reflexivity.
    + exists c. exact IH.
Qed.

End ExpectedValues.

(** ** Sorting and objects *)

Section Sorting.

Context {A : Type} (cmp : A -> A -> num).

Lemma insert_sorted_perm (x : A) (s : list A) :
  Permutation (insert_sorted cmp x s) (x :: s).
Proof.
  induction s as [|y s IH]; cbn [insert_sorted].
  - apply Permutation_refl.
  - destruct (sort_order (cmp y x)).
    + apply perm_trans with (y :: x :: s);
        [apply perm_skip, IH | apply perm_swap].
    + apply perm_trans with (y :: x :: s);
        [apply perm_skip, IH | apply perm_swap].
    + apply Permutation_refl.
Qed.

Lemma fold_insert_perm (l : list A) : forall acc : list A,
  Permutation
    (fold_left (fun sorted x => insert_sorted cmp x sorted) l acc) (l ++ acc).
Proof.
  induction l as [|x l IH]; intros acc; cbn [fold_left app].
  - apply Permutation_refl.
  - apply perm_trans with (l ++ insert_sorted cmp x acc); [apply IH|].
    apply perm_trans with (l ++ x :: acc).
    + apply Permutation_app_head, insert_sorted_perm.
    + apply Permutation_sym, Permutation_middle.
Qed.

Lemma array_sort_perm (l : list A) : Permutation (array_sort cmp l) l.
Proof.
  unfold array_sort.
  apply perm_trans with (l ++ []); [apply fold_insert_perm|].
  rewrite app_nil_r. apply Permutation_refl.
Qed.

(** The first element of the sorted array is found by one pass of [pick]. *)
Lemma fold_insert_hd (l : list A) : forall (y : A) (s : list A),
  exists s' : list A,
    fold_left (fun sorted x => insert_sorted cmp x sorted) l (y :: s)
    = fold_left (pick cmp) l y :: s'.
Proof.
  induction l as [|x l IH]; intros y s; cbn [fold_left].
  - exists s. reflexivity.
  - unfold pick at 2. cbn [insert_sorted].
    destruct (sort_order (cmp y x)); apply IH.
Qed.

Lemma array_sort_cons (x : A) (l : list A) :
  exists s' : list A, array_sort cmp (x :: l) = fold_left (pick cmp) l x :: s'.
Proof.
  unfold array_sort. cbn [fold_left insert_sorted]. apply fold_insert_hd.
Qed.

End Sorting.

Section Objects.

Lemma obj_get_set (acc : EVObject) (k : Action) (v : num) (k' : Action) :
  obj_get (obj_set acc k v) k'
  = if Action_eq_dec k k' then Some v else obj_get acc k'.
Proof.
  induction acc as [|[k0 v0] acc IH]; cbn [obj_set obj_get].
  - reflexivity.
  - destruct (Action_eq_dec k0 k) as [->|Hne]; cbn [obj_get].
    + destruct (Action_eq_dec k k'); reflexivity.
    + rewrite IH. destruct (Action_eq_dec k0 k') as [->|];
        destruct (Action_eq_dec k k'); congruence.
Qed.

Lemma obj_get_fold_other (l : list ActionEV) :
  forall (acc : EVObject) (k : Action),
    ~ In k (map action l) ->
    obj_get (fold_left (fun o b => obj_set o (action b) (ev b)) l acc) k = obj_get acc k.
Proof.
  induction l as [|a l IH]; intros acc k Hk; cbn [fold_left].
  - reflexivity.
  - cbn [map In] in Hk. rewrite IH by tauto.
    rewrite obj_get_set. destruct (Action_eq_dec (action a) k); tauto.
Qed.

Lemma obj_get_fold_member (l : list ActionEV) :
  forall (acc : EVObject) (a : ActionEV),
    NoDup (map action l) -> In a l ->
    obj_get (fold_left (fun o b => obj_set o (action b) (ev b)) l acc) (action a) = Some (ev a).
Proof.
  induction l as [|b l IH]; intros acc a Hnd Hin; [contradiction|].
  cbn [map] in Hnd. inversion Hnd as [|? ? Hnotin Hnd']; subst.
  cbn [fold_left]. destruct Hin as [->|Hin].
  - rewrite obj_get_fold_other by exact Hnotin.
    rewrite obj_get_set. destruct (Action_eq_dec (action a) (action a)); tauto.
  - apply IH; assumption.
Qed.

End Objects.

(** ** Strategy recommendation *)

Section Recommendation.

Local Open Scope Qc_scope.

Variables (playerCards : list Rank) (dealerUpCard : Rank) (deck : Deck).

Lemma getStrategyRecommendation_unfold (canDouble canSplit : option bool) :
  getStrategyRecommendation playerCards dealerUpCard deck canDouble canSplit
  = let standEV :=
      stand_ev (calculateProbabilities playerCards dealerUpCard deck) in
    let hitEV := hit_ev playerCards dealerUpCard deck in
    let actions :=
      array_sort by_ev_descending
        (filter kept
           (candidates standEV hitEV (with_default true canDouble)
              (with_default false canSplit))) in
    match actions with
    | [] => Throws TypeError
    | first :: _ =>
        Returns
          {| recommendedAction := action first;
             expectedValues :=
               fold_left (fun acc a => obj_set acc (action a) (ev a)) actions [];
             standEV := standEV;
             hitEV := hitEV |}
    end.
Proof. reflexivity. Qed.

Lemma hit_ev_sum :
  hit_ev playerCards dealerUpCard deck
  = let standEV :=
      stand_ev (calculateProbabilities playerCards dealerUpCard deck) in
    if (21 <=? total (evaluateHand playerCards))%Z then standEV
    else (standEV
          + sum_num
              (map (hit_contribution playerCards dealerUpCard deck standEV)
                 (filter (available deck) CARD_VALUES)))%num.
Proof.
  unfold hit_ev. cbv zeta. rewrite Z.ltb_antisym.
  destruct (21 <=? total (evaluateHand playerCards))%Z; cbn [negb].
  - reflexivity.
  - apply hit_loop_sum.
Qed.

Lemma hit_ev_Fin : exists h : Qc, hit_ev playerCards dealerUpCard deck = Fin h.
Proof.
  rewrite hit_ev_sum. cbv zeta.
  destruct (stand_ev_Fin playerCards dealerUpCard deck)
    as (w & l & _ & _ & ->).
  destruct (21 <=? _)%Z.
  - eexists. reflexivity.
  - destruct (hit_sum_Fin playerCards dealerUpCard deck (w - l) CARD_VALUES)
      as (c & ->).
    eexists. reflexivity.
Qed.

Lemma filter_kept_candidates (s h : Qc) (canDouble canSplit : bool) :
  filter kept (candidates (Fin s) (Fin h) canDouble canSplit)
  = kept_candidates s h canDouble canSplit.
Proof. destruct canDouble, canSplit; reflexivity. Qed.

(** The call returns: the stand and hit values are rationals, the sorted
    array is a permutation of the kept candidates, and its first element
    is the one that a pass of [pick] selects. *)
Lemma recommendation_returns (canDouble canSplit : option bool) :
  exists (w l h : Qc) (sorted : list ActionEV),
    winProb (calculateProbabilities playerCards dealerUpCard deck) = Fin w
    /\ lossProb (calculateProbabilities playerCards dealerUpCard deck) = Fin l
    /\ hit_ev playerCards dealerUpCard deck = Fin h
    /\ Permutation sorted
         (kept_candidates (w - l) h (with_default true canDouble)
            (with_default false canSplit))
    /\ getStrategyRecommendation playerCards dealerUpCard deck
         canDouble canSplit
       = Returns
           {| recommendedAction :=
                action
                  (fold_left (pick by_ev_descending)
                     (tl (kept_candidates (w - l) h
                            (with_default true canDouble)
                            (with_default false canSplit)))
                     {| action := STAND; ev := Fin (w - l) |});
              expectedValues :=
                fold_left (fun acc a => obj_set acc (action a) (ev a)) sorted [];
              standEV := Fin (w - l);
              hitEV := Fin h |}.
Proof.
  rewrite getStrategyRecommendation_unfold. cbv zeta.
  destruct (stand_ev_Fin playerCards dealerUpCard deck)
    as (w & l & Hw & Hl & ->).
  destruct hit_ev_Fin as (h & ->).
  rewrite filter_kept_candidates.
  pose proof (array_sort_perm by_ev_descending
                (kept_candidates (w - l) h (with_default true canDouble)
                   (with_default false canSplit))) as Hperm.
  destruct (array_sort_cons by_ev_descending
              {| action := STAND; ev := Fin (w - l) |}
              (tl (kept_candidates (w - l) h (with_default true canDouble)
                     (with_default false canSplit)))) as (rest & Hsort).
  change ({| action := STAND; ev := Fin (w - l) |}
          :: tl (kept_candidates (w - l) h (with_default true canDouble)
                   (with_default false canSplit)))
    with (kept_candidates (w - l) h (with_default true canDouble)
            (with_default false canSplit)) in Hsort.
  remember (array_sort by_ev_descending
              (kept_candidates (w - l) h (with_default true canDouble)
                 (with_default false canSplit))) as sorted eqn:Hs.
  exists w, l, h, sorted.
  repeat split; try assumption.
  rewrite Hsort. reflexivity.
Qed.

End Recommendation.

(** ** The engine in binary64 *)

Section Binary64Facts.

Local Open Scope float_scope.

(** The order of the specification of binary64, read backwards. *)
Lemma SFcompare_antisym (x y : spec_float) :
  SFcompare y x = option_map CompOpp (SFcompare x y).
Proof.
  destruct x as [sx|sx| |sx mx ex], y as [sy|sy| |sy my ey];
    cbn [SFcompare option_map]; try reflexivity;
    try (destruct sx; reflexivity); try (destruct sy; reflexivity);
    try (destruct sx, sy; reflexivity).
  pose proof (Pos.compare_cont_antisym mx my Eq) as Hm.
  change (CompOpp Eq) with Eq in Hm.
  destruct sx, sy; try reflexivity; apply f_equal;
    rewrite (Z.compare_antisym ex ey); destruct (ex ?= ey)%Z;
    cbn [CompOpp]; try reflexivity; rewrite <- Hm; reflexivity.
Qed.

(** A number is [NaN], or it is compared with every other number. *)
Lemma is_nan_Prim2SF (x : float) :
  is_nan x = true <-> Prim2SF x = S754_nan.
Proof.
  unfold is_nan. rewrite eqb_spec. unfold SFeqb.
  destruct (Prim2SF x) as [s|s| |s m e]; cbn [SFcompare negb].
  - split; discriminate.
  - destruct s; split; discriminate.
  - split; reflexivity.
  - rewrite Z.compare_refl, Pos.compare_cont_refl.
    destruct s; split; discriminate.
Qed.

Lemma ltb_leb (x y : float) : (x <? y) = true -> (x <=? y) = true.
Proof.
  rewrite ltb_spec, leb_spec. unfold SFltb, SFleb.
  destruct (SFcompare (Prim2SF x) (Prim2SF y)) as [[| |]|];
    try discriminate; reflexivity.
Qed.

Lemma not_ltb_leb (x y : float) :
  is_nan x = false -> is_nan y = false ->
  (x <? y) = false -> (y <=? x) = true.
Proof.
  intros Hx Hy. rewrite ltb_spec, leb_spec. unfold SFltb, SFleb.
  rewrite (SFcompare_antisym (Prim2SF x) (Prim2SF y)).
  assert (Hx' : Prim2SF x <> S754_nan)
    by (intros H; apply is_nan_Prim2SF in H; congruence).
  assert (Hy' : Prim2SF y <> S754_nan)
    by (intros H; apply is_nan_Prim2SF in H; congruence).
  assert (Hc : exists c, SFcompare (Prim2SF x) (Prim2SF y) = Some c).
  { destruct (Prim2SF x) as [sx|sx| |sx mx ex],
             (Prim2SF y) as [sy|sy| |sy my ey];
      try congruence; cbn [SFcompare]; eauto. }
  destruct Hc as [c ->]. cbn [option_map].
  destruct c; cbn [CompOpp]; try reflexivity; discriminate.
Qed.

(** A finite number is a zero or has a mantissa; the others are [NaN]
    and the infinities. *)
Lemma is_finite_Prim2SF (x : float) :
  is_finite x
  = match Prim2SF x with
    | S754_zero _ | S754_finite _ _ _ => true
    | _ => false
    end.
Proof.
  unfold is_finite, is_infinity.
  destruct (is_nan x) eqn:Hn.
  - apply is_nan_Prim2SF in Hn. rewrite Hn. reflexivity.
  - rewrite eqb_spec, abs_spec. cbn [orb].
    assert (Hx : Prim2SF x <> S754_nan)
      by (intros H; apply is_nan_Prim2SF in H; congruence).
    change (Prim2SF infinity) with (S754_infinity false).
    destruct (Prim2SF x) as [s|s| |s m e]; try congruence; reflexivity.
Qed.

(** The product of a number and [0]: a zero for a finite number, [NaN]
    for the others. *)
Lemma mul_zero (x : float) :
  if is_finite x then exists s, Prim2SF (x * 0) = S754_zero s
  else Prim2SF (x * 0) = S754_nan.
Proof.
  rewrite is_finite_Prim2SF, mul_spec.
  change (Prim2SF 0) with (S754_zero false). unfold SF64mul.
  destruct (Prim2SF x) as [s|s| |s m e]; cbn [SFmul]; eauto.
Qed.

(** What [Math.max(1, Math.min(500, Math.floor(z)))] is for a zero. *)
Lemma clamp_floor_zero (z : float) (s : bool) :
  Prim2SF z = S754_zero s ->
  B64.max 1 (B64.min 500 (B64.floor z)) = 1.
Proof.
  intros Hz.
  assert (Hf : B64.floor z = z) by (unfold B64.floor; rewrite Hz; reflexivity).
  assert (Hn : is_nan z = false).
  { destruct (is_nan z) eqn:E; [|reflexivity].
    apply is_nan_Prim2SF in E. congruence. }
  assert (H1 : (500 <? z) = false).
  { rewrite ltb_spec, Hz. reflexivity. }
  assert (H2 : (z <? 500) = true).
  { rewrite ltb_spec, Hz. reflexivity. }
  assert (H3 : (1 <? z) = false).
  { rewrite ltb_spec, Hz. reflexivity. }
  assert (H4 : (z <? 1) = true).
  { rewrite ltb_spec, Hz. reflexivity. }
  rewrite Hf. unfold B64.min. rewrite Hn.
  change (is_nan 500 || false) with false. cbv iota. rewrite H1, H2.
  unfold B64.max. rewrite Hn.
  change (is_nan 1 || false) with false. cbv iota. rewrite H3, H4.
  reflexivity.
Qed.

Lemma clamp_floor_nan (z : float) :
  Prim2SF z = S754_nan ->
  B64.max 1 (B64.min 500 (B64.floor z)) = nan.
Proof.
  intros Hz.
  assert (Hf : B64.floor z = z) by (unfold B64.floor; rewrite Hz; reflexivity).
  assert (Hn : is_nan z = true) by (apply is_nan_Prim2SF; exact Hz).
  rewrite Hf. unfold B64.min. rewrite Hn.
  change (is_nan 500 || true) with true. cbv iota. reflexivity.
Qed.


(** [Math.max(1, Math.min(500, z))] is 1 or above 1, and not above 500,
    for a number [z]; it is [NaN] for [NaN]. *)
Lemma clamp_bet_range (z : float) :
  is_nan z = false ->
  let bet := B64.max 1 (B64.min 500 z) in
  (bet = 1 \/ (1 <? bet) = true) /\ (500 <? bet) = false
  /\ is_nan bet = false.
Proof.
  intros Hz bet.
  assert (Hm : is_nan (B64.min 500 z) = false
               /\ (500 <? B64.min 500 z) = false).
  { unfold B64.min. rewrite Hz.
    change (is_nan 500 || false) with false. cbv iota.
    destruct (500 <? z) eqn:E1; [split; reflexivity|].
    destruct (z <? 500) eqn:E2; [split; assumption|].
    change (get_sign 500) with false. cbv iota. split; assumption. }
  destruct Hm as [Hn Hu]. subst bet. unfold B64.max. rewrite Hn.
  change (is_nan 1 || false) with false. cbv iota.
  destruct (1 <? B64.min 500 z) eqn:E1.
  - repeat split; [right; exact E1 | exact Hu | exact Hn].
  - assert (Hone : (if B64.min 500 z <? 1 then 1
                    else if get_sign 1 then B64.min 500 z else 1) = 1).
    { change (get_sign 1) with false. cbv iota.
      destruct (B64.min 500 z <? 1); reflexivity. }
    rewrite Hone. repeat split. left; reflexivity.
Qed.

Lemma clamp_bet_between (z : float) :
  is_nan z = false ->
  B64.between 1 500 (B64.max 1 (B64.min 500 z)) = true.
Proof.
  intros Hz. destruct (clamp_bet_range z Hz) as (Hlo & Hhi & Hn).
  unfold B64.between. apply andb_true_intro. split.
  - destruct Hlo as [-> | Hlt]; [reflexivity | apply ltb_leb; exact Hlt].
  - apply not_ltb_leb; [reflexivity | exact Hn | exact Hhi].
Qed.

Lemma clamp_bet_nan (z : float) :
  is_nan z = true -> B64.max 1 (B64.min 500 z) = nan.
Proof.
  intros Hz. unfold B64.min. rewrite Hz.
  change (is_nan 500 || true) with true. cbv iota. reflexivity.
Qed.

(** One turn of the loop adds the contribution of the rank, if the shoe
    holds a card of it. *)
Lemma B64_hit_step_contribution
    (playerCards : list Rank) (dealerUpCard : Rank) (deck : Deck)
    (standEV acc : float) (r : Rank) :
  B64.hit_step playerCards dealerUpCard deck standEV (totalRemaining deck)
    acc (r, deck r)
  = if available deck r then
      acc + B64.hit_contribution playerCards dealerUpCard deck standEV r
    else acc.
Proof.
  unfold B64.hit_step, B64.hit_contribution, available.
  destruct (0 <? deck r)%nat; [|reflexivity].
  cbv zeta. destruct (isBust (evaluateHand (playerCards ++ [r]))); reflexivity.
Qed.

(** The loop over the entries of the shoe adds the contributions of the
    available ranks one after the other, in the order of the keys. *)
Lemma B64_hit_loop
    (playerCards : list Rank) (dealerUpCard : Rank) (deck : Deck)
    (standEV : float) (keys : list Rank) (acc : float) :
  fold_left
    (B64.hit_step playerCards dealerUpCard deck standEV (totalRemaining deck))
    (map (fun r => (r, deck r)) keys) acc
  = fold_left
      (fun hitEV r =>
         hitEV + B64.hit_contribution playerCards dealerUpCard deck standEV r)
      (filter (available deck) keys) acc.
Proof.
  revert acc. induction keys as [|r keys IH]; intros acc; [reflexivity|].
  cbn [map fold_left filter]. rewrite B64_hit_step_contribution.
  destruct (available deck r); cbn [fold_left]; apply IH.
Qed.

Lemma B64_insert_sorted_length {A : Type} (cmp : A -> A -> float) (x : A)
    (l : list A) :
  length (B64.insert_sorted cmp x l) = S (length l).
Proof.
  induction l as [|y l IH]; [reflexivity|].
  cbn [B64.insert_sorted]. destruct (B64.sort_order (cmp y x));
    cbn [length]; rewrite ?IH; reflexivity.
Qed.

Lemma B64_array_sort_length {A : Type} (cmp : A -> A -> float) (l : list A) :
  length (B64.array_sort cmp l) = length l.
Proof.
  unfold B64.array_sort.
  enough (H : forall acc,
             length (fold_left (fun sorted x => B64.insert_sorted cmp x sorted)
                       l acc)
             = (length l + length acc)%nat)
    by (rewrite H; cbn [length]; lia).
  induction l as [|x l IH]; intros acc; [reflexivity|].
  cbn [fold_left length]. rewrite IH, B64_insert_sorted_length. lia.
Qed.

(** The call returns with the two values in its record as soon as an
    action passes the filter, and STAND and HIT are held back only by a
    value of [-Infinity]. *)
Lemma B64_recommendation_cases
    (playerCards : list Rank) (dealerUpCard : Rank) (deck : Deck)
    (canDouble canSplit : option bool) :
  let s :=
    B64.stand_ev (B64.calculateProbabilities playerCards dealerUpCard deck) in
  let h := B64.hit_ev playerCards dealerUpCard deck in
  match B64.getStrategyRecommendation playerCards dealerUpCard deck
          canDouble canSplit with
  | Returns r => B64.standEV r = s /\ B64.hitEV r = h
  | Throws e =>
      e = TypeError /\ (s =? neg_infinity) = true
      /\ (h =? neg_infinity) = true
  end.
Proof.
  intros s h. unfold B64.getStrategyRecommendation. cbv zeta.
  fold s. change (if (total (evaluateHand playerCards) <? 21)%Z
                  then fold_left
                         (B64.hit_step playerCards dealerUpCard deck s
                            (totalRemaining deck))
                         (Object_entries deck) s
                  else s) with h.
  match goal with
  | |- match match B64.array_sort ?cmp ?l with _ => _ end with _ => _ end =>
      pose proof (B64_array_sort_length cmp l) as Hlen;
      destruct (B64.array_sort cmp l) as [|first rest]
  end.
  - split; [reflexivity|].
    cbn [filter B64.ev] in Hlen.
    destruct (s =? neg_infinity); [|discriminate Hlen].
    destruct (h =? neg_infinity); [|discriminate Hlen].
    split; reflexivity.
  - split; reflexivity.
Qed.

End Binary64Facts.

(** C3, as stated, fails: for the hand 5, 3 against a 4 on the full shoe
    the call returns a [hitEV] of 0.15228790502102413, the contributions
    being added to the running value one after the other.  [standEV]
    plus the sum of the contributions is 0.15228790502102407 in binary64;
    without rounding of the sum it is not the returned value either, nor
    is 6157/40430, the value in exact arithmetic.  For 10, K against a 6
    on a shoe of four threes and one king every draw busts the hand and
    the returned [hitEV] is -1.0000000000000002, below -1. *)
Lemma C3_hitEV_differs_from_the_sum :
  let s :=
    B64.stand_ev (B64.calculateProbabilities [c5; c3] c4 initializeDeck) in
  let contributions :=
    map (B64.hit_contribution [c5; c3] c4 initializeDeck s)
      (filter (available initializeDeck) CARD_VALUES) in
  total (evaluateHand [c5; c3]) < 21
  /\ (exists r : B64.Recommendation,
        B64.getStrategyRecommendation [c5; c3] c4 initializeDeck None None
        = Returns r
        /\ B64.standEV r = s
        /\ (B64.hitEV r = 0.15228790502102413)%float
        /\ (s + B64.sum_float contributions = 0.15228790502102407)%float
        /\ (B64.hitEV r =? s + B64.sum_float contributions)%float = false
        /\ (exists q q' : Q,
              B64.sum_Q (s :: contributions) = Some q
              /\ B64.to_Q (B64.hitEV r) = Some q'
              /\ Qeq_bool q q' = false
              /\ Qeq_bool (6157 # 40430) q' = false))
  /\ hit_ev [c5; c3] c4 initializeDeck = lit (6157 # 40430)
  /\ (exists r : B64.Recommendation,
        B64.getStrategyRecommendation [c10; cK] c6 shortDeck None None
        = Returns r
        /\ (B64.hitEV r = -1.0000000000000002)%float).
Proof.
  cbv zeta. split; [vm_compute; reflexivity|].
  split; [| split].
  - eexists. split; [vm_compute; reflexivity|].
    split; [vm_compute; reflexivity|].
    split; [vm_compute; reflexivity|].
    split; [vm_compute; reflexivity|].
    split; [vm_compute; reflexivity|].
    eexists. eexists. by_computation.
  - vm_compute. apply f_equal, Qc_is_canon. reflexivity.
  - eexists. split; vm_compute; reflexivity.
Qed.

(** C3, amended.  [standEV] is winProb * 1 + lossProb * (-1) + pushProb *
    0 on the estimate.  [hitEV] is [standEV] if the total of the hand is
    21 or more; otherwise it is what is left when, starting from
    [standEV], the contribution of each rank of which the shoe holds a
    card is added to the running value, one rank after the other in the
    order of the keys of the shoe (2 to 10, then A, J, Q, K), each sum
    and product rounded to binary64.  The contribution of a rank is
    count / remaining total times (-1 - standEV) if one more card of the
    rank busts the hand, times (newStandEV - standEV) if not.  The call
    returns these two values in its record; it could only fail if both
    were [-Infinity]. *)
Theorem C3_hitEV_accumulates_in_key_order
    (playerCards : list Rank) (dealerUpCard : Rank) (deck : Deck)
    (canDouble canSplit : option bool) :
  let probs := B64.calculateProbabilities playerCards dealerUpCard deck in
  let s :=
    (B64.winProb probs * 1 + B64.lossProb probs * (-1)
     + B64.pushProb probs * 0)%float in
  let contribution (rank : Rank) :=
    (let weight :=
       B64.of_nat (deck rank) / B64.of_nat (totalRemaining deck) in
     let newCards := playerCards ++ [rank] in
     if isBust (evaluateHand newCards) then weight * (-1 - s)
     else
       let newStandEV :=
         B64.stand_ev
           (B64.calculateProbabilities newCards dealerUpCard
              (deck_set deck rank (deck rank - 1)%nat)) in
       weight * (newStandEV - s))%float in
  let h :=
    if 21 <=? total (evaluateHand playerCards) then s
    else
      fold_left (fun hitEV rank => (hitEV + contribution rank)%float)
        (filter (fun rank => (0 <? deck rank)%nat) deck_keys) s in
  match B64.getStrategyRecommendation playerCards dealerUpCard deck
          canDouble canSplit with
  | Returns r => B64.standEV r = s /\ B64.hitEV r = h
  | Throws e =>
      e = TypeError /\ (s =? neg_infinity)%float = true
      /\ (h =? neg_infinity)%float = true
  end.
Proof.
  intros probs s contribution h.
  pose proof (B64_recommendation_cases playerCards dealerUpCard deck
                canDouble canSplit) as H.
  cbv zeta in H.
  assert (Hh : B64.hit_ev playerCards dealerUpCard deck = h).
  { unfold B64.hit_ev. cbv zeta. unfold Object_entries.
    rewrite B64_hit_loop. subst h.
    rewrite (Z.leb_antisym (total (evaluateHand playerCards)) 21).
    destruct (total (evaluateHand playerCards) <? 21); reflexivity. }
  rewrite Hh in H. exact H.
Qed.





(** ** Bet sizing *)

Section BetSizing.

Local Open Scope Qc_scope.

Lemma Fin_eq (a b : Qc) : (a == b)%Q -> Fin a = Fin b.
Proof. intros H. f_equal. apply Qc_is_canon. exact H. Qed.

Lemma Qc_eq_bool_false (a b : Qc) : a <> b -> Qc_eq_bool a b = false.
Proof.
  intros Hne. destruct (Qc_eq_bool a b) eqn:E; [|reflexivity].
  apply Qc_eq_bool_correct in E. contradiction.
Qed.

Lemma div_Fin (a b : Qc) : b <> 0 -> (Fin a / Fin b)%num = Fin (a / b).
Proof. intros Hb. unfold div. rewrite (Qc_eq_bool_false _ _ Hb). reflexivity. Qed.



Lemma with_default_Fin (d : Qc) (arg : option Qc) :
  with_default (Fin d) (option_map Fin arg) = Fin (with_default d arg).
Proof. destruct arg; reflexivity. Qed.

End BetSizing.

(** C5, as stated, fails.  On (6, 6004799503160661 / 2^53, 0, 1) the
    product 0.5 * kellyFraction * bankroll is 2 - 2^-53, whose floor is 1,
    but it is rounded to 2 before the floor is taken and the call returns
    a recommendedBet of 2.  On (1000, 0.7, 0.3) the call returns the bet
    199 and the percentage 199 / 1000 * 100 = 19.900000000000002, where
    100 * 199 / 1000 is 19.9 and where the floor of 0.5 * 0.4 * 1000 in
    exact arithmetic is 200. *)
Lemma C5_bet_is_floor_of_rounded_product :
  let winProb := (B64.of_Z 6004799503160661 / B64.of_Z 9007199254740992)%float in
  let exact : Q := (6004799503160661 # 9007199254740992)%Q in
  B64.to_Q winProb = Some exact
  /\ Z.max 1 (Z.min 500 (Qfloor (0.5 * ((1 * exact - 0) / 1) * 6)%Q)) = 1
  /\ (exists r : B64.BetRecommendation,
        B64.calculateOptimalBetForNextRound 6 winProb 0 (Some 1%float)
        = Returns r
        /\ B64.recommendedBet r = 2%float)
  /\ (exists r : B64.BetRecommendation,
        B64.calculateOptimalBetForNextRound 1000 0.7 0.3 None = Returns r
        /\ B64.recommendedBet r = 199%float
        /\ B64.betPercentage r = 19.900000000000002%float
        /\ (100 * B64.recommendedBet r / 1000 = 19.9)%float
        /\ (B64.betPercentage r =? 100 * B64.recommendedBet r / 1000)%float
           = false)
  /\ Z.max 1 (Z.min 500 (Qfloor (0.5 * ((1 * 0.7 - 0.3) / 1) * 1000)%Q)) = 200.
Proof.
  cbv zeta. split; [vm_compute; reflexivity|].
  split; [vm_compute; reflexivity|].
  split; [| split; [| vm_compute; reflexivity]];
    eexists; (split; [vm_compute; reflexivity|]); by_computation.
Qed.

(** C5, amended.  For every bankroll, probabilities and payout [b] the
    call returns kellyFraction = (b * winProb - lossProb) / b,
    recommendedBet = the floor of (kellyFraction * 0.5) * bankroll
    clamped to [1, 500], and betPercentage = (recommendedBet / bankroll)
    * 100, each operation rounded to binary64 and taken in this order.
    When the floor is a number, the bet lies between 1 and 500, whatever
    the sign of the edge; when it is [NaN], so is the bet.  On
    (1000, 0.5, 0.5, 1) the result is 0, 1 and 0.1, and on
    (1000, 0.9, 0.1, 1) it is 0.8, 400 and 40. *)
Theorem C5_kelly_bet_sizing_binary64 :
  (forall (bankroll winProb lossProb : float) (payout : option float),
     let b := with_default 1%float payout in
     let kelly := ((b * winProb - lossProb) / b)%float in
     let floored := B64.floor (kelly * 0.5 * bankroll)%float in
     let bet := B64.max 1 (B64.min 500 floored) in
     B64.calculateOptimalBetForNextRound bankroll winProb lossProb payout
     = Returns
         {| B64.kellyFraction := kelly;
            B64.recommendedBet := bet;
            B64.betPercentage := (bet / bankroll * 100)%float |}
     /\ (is_nan floored = false -> B64.between 1 500 bet = true)
     /\ (is_nan floored = true -> bet = nan))
  /\ B64.calculateOptimalBetForNextRound 1000 0.5 0.5 (Some 1%float)
     = Returns
         {| B64.kellyFraction := 0; B64.recommendedBet := 1;
            B64.betPercentage := 0.1 |}
  /\ B64.calculateOptimalBetForNextRound 1000 0.9 0.1 (Some 1%float)
     = Returns
         {| B64.kellyFraction := 0.8; B64.recommendedBet := 400;
            B64.betPercentage := 40 |}.
Proof.
  split; [| split; vm_compute; reflexivity].
  intros bankroll winProb lossProb payout b kelly floored bet.
  split; [reflexivity|]. split.
  - intros Hn. exact (clamp_bet_between floored Hn).
  - intros Hn. exact (clamp_bet_nan floored Hn).
Qed.

Lemma C5_kelly_bet_sizing_binary64_witness :
  is_nan (B64.floor ((1 * 0.7 - 0.3) / 1 * 0.5 * 1000)%float) = false
  /\ B64.between 1 500
       (B64.max 1
          (B64.min 500 (B64.floor ((1 * 0.7 - 0.3) / 1 * 0.5 * 1000)%float)))
     = true.
Proof.
  assert (Hn : is_nan (B64.floor ((1 * 0.7 - 0.3) / 1 * 0.5 * 1000)%float)
               = false) by (vm_compute; reflexivity).
  split; [exact Hn|].
  exact (proj1 (proj2 (proj1 C5_kelly_bet_sizing_binary64
                         1000 0.7 0.3 None)%float) Hn).
Defined.

(** C1, as stated, fails: with a bankroll of 0 the call raises nothing.
    It returns kellyFraction 0, recommendedBet 1 and, from the division
    of 1 by 0, betPercentage [Infinity]. *)
Lemma C1_zero_bankroll_returns :
  calculateOptimalBetForNextRound (lit 0) (lit 0.5) (lit 0.5) None
  = Returns
      {| kellyFraction := lit 0; recommendedBet := lit 1;
         betPercentage := PInf |}
  /\ calculateOptimalBetForNextRound (lit 0) (lit 0.5) (lit 0.5) None
     <> Throws InvalidBankrollError.
Proof.
  assert (H : calculateOptimalBetForNextRound (lit 0) (lit 0.5) (lit 0.5) None
              = Returns
                  {| kellyFraction := lit 0; recommendedBet := lit 1;
                     betPercentage := PInf |}).
  { vm_compute. apply f_equal.
    apply f_equal3; try reflexivity; apply Fin_eq; reflexivity. }
  split; [exact H|]. rewrite H. discriminate.
Qed.

(** C1, amended.  The call never fails: for every bankroll, be it zero,
    negative or positive, and every other argument it returns a record,
    in exact arithmetic and in binary64 alike.  With a bankroll of 0 the
    record holds recommendedBet 1 and betPercentage [Infinity] when half
    the Kelly fraction is a finite number, and [NaN] for both when it is
    not; on (0, 0.5, 0.5) it holds kellyFraction 0, recommendedBet 1 and
    betPercentage [Infinity]. *)
Theorem C1_bet_sizing_never_fails :
  (forall (bankroll winProb lossProb : num) (payout : option num),
     exists r : BetRecommendation,
       calculateOptimalBetForNextRound bankroll winProb lossProb payout
       = Returns r)
  /\ (forall (bankroll winProb lossProb : float) (payout : option float),
        exists r : B64.BetRecommendation,
          B64.calculateOptimalBetForNextRound bankroll winProb lossProb payout
          = Returns r)
  /\ (forall (winProb lossProb : float) (payout : option float),
        let b := with_default 1%float payout in
        let kelly := ((b * winProb - lossProb) / b)%float in
        B64.calculateOptimalBetForNextRound 0 winProb lossProb payout
        = Returns
            (if is_finite (kelly * 0.5)%float then
               {| B64.kellyFraction := kelly; B64.recommendedBet := 1;
                  B64.betPercentage := infinity |}
             else
               {| B64.kellyFraction := kelly; B64.recommendedBet := nan;
                  B64.betPercentage := nan |}))
  /\ B64.calculateOptimalBetForNextRound 0 0.5 0.5 None
     = Returns
         {| B64.kellyFraction := 0; B64.recommendedBet := 1;
            B64.betPercentage := infinity |}
  /\ calculateOptimalBetForNextRound (lit 0) (lit 0.5) (lit 0.5) None
     = Returns
         {| kellyFraction := lit 0; recommendedBet := lit 1;
            betPercentage := PInf |}.
Proof.
  split; [| split; [| split; [| split]]].
  - intros. unfold calculateOptimalBetForNextRound. eexists. reflexivity.
  - intros. unfold B64.calculateOptimalBetForNextRound. eexists. reflexivity.
  - intros winProb lossProb payout b kelly.
    unfold B64.calculateOptimalBetForNextRound. cbv zeta. fold b. fold kelly.
    pose proof (mul_zero (kelly * 0.5)%float) as Hz.
    destruct (is_finite (kelly * 0.5)%float).
    + destruct Hz as [s Hz]. rewrite (clamp_floor_zero _ s Hz). reflexivity.
    + rewrite (clamp_floor_nan _ Hz). reflexivity.
  - vm_compute. reflexivity.
  - vm_compute. apply f_equal.
    apply f_equal3; try reflexivity; apply Fin_eq; reflexivity.
Qed.

Lemma C1_bet_sizing_never_fails_witness :
  is_finite ((with_default 1 None * 0.5 - 0.5) / with_default 1 None * 0.5)%float
  = true
  /\ B64.calculateOptimalBetForNextRound 0 0.5 0.5 None
     = Returns
         {| B64.kellyFraction := 0; B64.recommendedBet := 1;
            B64.betPercentage := infinity |}.
Proof.
  split; [vm_compute; reflexivity|].
  exact (proj1 (proj2 (proj2 C1_bet_sizing_never_fails)) 0.5 0.5 None)%float.
Defined.

(** ** The shoe of the component *)

(** C2, as stated, fails: [addCard] on a rank of which no card is left
    raises nothing; it returns and leaves the state as it was. *)
Lemma C2_depleted_rank_returns :
  Terminal.deck depletedState cA = 0%nat
  /\ Terminal.addCard cA Terminal.player depletedState = Returns depletedState
  /\ Terminal.addCard cA Terminal.player depletedState
     <> Throws DepletedRankError.
Proof.
  repeat split. discriminate.
Qed.

Lemma addCard_available
    (st : Terminal.State) (card : Rank) (target : Terminal.Target) :
  (0 < Terminal.deck st card)%nat ->
  exists st' : Terminal.State,
    Terminal.addCard card target st = Returns st'
    /\ Terminal.deck st'
       = deck_set (Terminal.deck st) card (Terminal.deck st card - 1)%nat.
Proof.
  intros Hpos. unfold Terminal.addCard.
  destruct (Terminal.deck st card <=? 0)%nat eqn:E;
    [apply Nat.leb_le in E; lia|].
  destruct target; eexists; split; reflexivity.
Qed.

(** C2, amended.  For a rank of which the shoe holds no card, [addCard]
    returns without an error and leaves the whole state, the shoe with it,
    unchanged; for a rank of which the shoe holds a card, it returns a
    state in which the count of that rank is one less and the count of
    every other rank is the same. *)
Theorem C2_addCard_debits_one_rank
    (st : Terminal.State) (card : Rank) (target : Terminal.Target) :
  (Terminal.deck st card = 0%nat ->
   Terminal.addCard card target st = Returns st)
  /\ ((0 < Terminal.deck st card)%nat ->
      exists st' : Terminal.State,
        Terminal.addCard card target st = Returns st'
        /\ Terminal.deck st' card = (Terminal.deck st card - 1)%nat
        /\ S (Terminal.deck st' card) = Terminal.deck st card
        /\ forall r : Rank, r <> card ->
             Terminal.deck st' r = Terminal.deck st r).
Proof.
  split.
  - intros Hz. unfold Terminal.addCard. rewrite Hz. reflexivity.
  - intros Hpos.
    destruct (addCard_available st card target Hpos) as (st' & Hret & Hdeck).
    exists st'. split; [exact Hret|]. rewrite Hdeck. unfold deck_set.
    destruct (Rank_eq_dec card card) as [_|Hne]; [|contradiction].
    repeat split; try lia.
    intros r Hr. destruct (Rank_eq_dec r card); [contradiction | reflexivity].
Qed.

Lemma C2_addCard_debits_one_rank_witness :
  (Terminal.deck depletedState c5 = 0%nat
   /\ Terminal.addCard c5 Terminal.dealer_up depletedState
      = Returns depletedState)
  /\ ((0 < Terminal.deck freshState c5)%nat
      /\ exists st' : Terminal.State,
           Terminal.addCard c5 Terminal.player freshState = Returns st'
           /\ Terminal.deck st' c5 = 23%nat).
Proof.
  assert (H0 : Terminal.deck depletedState c5 = 0%nat) by reflexivity.
  assert (H1 : (0 < Terminal.deck freshState c5)%nat) by (vm_compute; lia).
  split.
  - split; [exact H0|].
    exact (proj1 (C2_addCard_debits_one_rank depletedState c5
                    Terminal.dealer_up) H0).
  - split; [exact H1|].
    destruct (proj2 (C2_addCard_debits_one_rank freshState c5
                       Terminal.player) H1) as (st' & Hret & Hcount & _).
    exists st'. split; [exact Hret | exact Hcount].
Defined.

(** * Further properties *)

(** ** Hands *)

Section HandFacts.

Lemma hard_total_raw (cards : list Rank) :
  raw_total cards = hard_total cards + 10 * Z.of_nat (count_aces cards).
Proof.
  unfold count_aces.
  induction cards as [|card cards IH]; [reflexivity|].
  cbn [raw_total hard_total fold_right count_occ].
  fold (raw_total cards). fold (hard_total cards). rewrite IH.
  destruct (Rank_eq_dec card cA) as [->|Hne].
  - change (getCardValue cA true) with 11.
    change (getCardValue cA false) with 1. lia.
  - assert (getCardValue card true = getCardValue card false)
      by (destruct card; try reflexivity; contradiction).
    lia.
Qed.

(** The hands that are a natural. *)
Lemma natural_hands (hand : list Rank) :
  isBlackjack (evaluateHand hand) = true ->
  exists t : Rank,
    ten_valued t = true /\ (hand = [cA; t] \/ hand = [t; cA]).
Proof.
  intros H.
  destruct hand as [|a [|b [|c hand]]];
    try (unfold evaluateHand in H;
         destruct (fold_left count_card _ _) as [t0 a0];
         destruct (adjust_aces t0 a0); cbn in H; discriminate).
  destruct a, b; try discriminate H;
    first [ (eexists; split; [|left; reflexivity]; reflexivity)
          | (eexists; split; [|right; reflexivity]; reflexivity) ].
Qed.

End HandFacts.

(** X1.  [evaluateHand] finds the best total: with [j] the number of aces
    that stay at 11, the total is the all-ones total plus 10 for each of
    them; the hand is bust exactly when the all-ones total is above 21,
    and then no ace stays at 11; otherwise the total is at most 21 and
    cannot take one more ace at 11; and the hand is soft exactly when an
    ace stays at 11. *)
Theorem X1_evaluateHand_best_total (cards : list Rank) :
  exists j : nat,
    (j <= count_aces cards)%nat
    /\ total (evaluateHand cards) = hard_total cards + 10 * Z.of_nat j
    /\ (isBust (evaluateHand cards) = true <-> hard_total cards > 21)
    /\ (hard_total cards > 21 -> j = 0%nat)
    /\ (hard_total cards <= 21 ->
        total (evaluateHand cards) <= 21
        /\ (j = count_aces cards \/ total (evaluateHand cards) + 10 > 21))
    /\ (isSoft (evaluateHand cards) = true <-> (0 < j)%nat).
Proof.
  rewrite evaluateHand_unfold.
  destruct (adjust_aces_spec (count_aces cards) (raw_total cards))
    as (k & Hk & Heq & Hall & Hstop).
  rewrite Heq. cbn [total isBust isSoft].
  pose proof (hard_total_raw cards) as Hraw.
  exists (count_aces cards - k)%nat.
  assert (Hlast : (0 < k)%nat -> raw_total cards - 10 * Z.of_nat (k - 1) > 21)
    by (intros Hpos; apply Hall; lia).
  rewrite andb_true_iff, Nat.ltb_lt, Z.leb_le, Z.gtb_gt.
  repeat split; lia.
Qed.

(** X2.  A hand is a natural blackjack exactly when it is an ace and a
    card that counts 10, in either order. *)
Theorem X2_blackjack_is_ace_and_ten (cards : list Rank) :
  isBlackjack (evaluateHand cards) = true
  <-> exists t : Rank,
        ten_valued t = true /\ (cards = [cA; t] \/ cards = [t; cA]).
Proof.
  split.
  - apply natural_hands.
  - intros (t & Ht & [-> | ->]); destruct t; try discriminate Ht; reflexivity.
Qed.

(** ** Estimates and expected values *)

Section EstimateFacts.

Local Open Scope Qc_scope.

Lemma calculateProbabilities_ext
    (cards cards' : list Rank) (up : Rank) (deck : Deck) :
  evaluateHand cards = evaluateHand cards' ->
  calculateProbabilities cards up deck = calculateProbabilities cards' up deck.
Proof.
  intros H. unfold calculateProbabilities. rewrite H. reflexivity.
Qed.

Lemma fold_left_pointwise {A B : Type} (f g : A -> B -> A) (l : list B) :
  (forall a b, f a b = g a b) ->
  forall a : A, fold_left f l a = fold_left g l a.
Proof.
  intros Hfg. induction l as [|b l IH]; intros a; cbn [fold_left].
  - reflexivity.
  - rewrite Hfg. apply IH.
Qed.

Lemma hit_ev_perm (cards cards' : list Rank) (up : Rank) (deck : Deck) :
  Permutation cards cards' ->
  hit_ev cards up deck = hit_ev cards' up deck.
Proof.
  intros H. unfold hit_ev. cbv zeta.
  rewrite (evaluateHand_perm _ _ H).
  rewrite (calculateProbabilities_ext cards cards' up deck
             (evaluateHand_perm _ _ H)).
  destruct (total (evaluateHand cards') <? 21)%Z; [|reflexivity].
  apply fold_left_pointwise. intros acc [card count].
  assert (Hp : Permutation (cards ++ [card]) (cards' ++ [card]))
    by (apply Permutation_app_tail; exact H).
  unfold hit_step.
  rewrite (evaluateHand_perm _ _ Hp).
  rewrite (calculateProbabilities_ext _ _ up
             (deck_set deck card (count - 1)%nat) (evaluateHand_perm _ _ Hp)).
  reflexivity.
Qed.

End EstimateFacts.

(** X3.  A bust hand is a lost hand whatever the up card and the shoe:
    the estimate is win 0, loss 1, push 0; standing and hitting are both
    valued -1, and the recommendation is STAND, unless a split is
    allowed, which at -0.9 is then recommended. *)
Theorem X3_bust_hand_is_lost
    (playerCards : list Rank) (dealerUpCard : Rank) (deck : Deck)
    (canDouble canSplit : option bool) :
  isBust (evaluateHand playerCards) = true ->
  (winProb (calculateProbabilities playerCards dealerUpCard deck) = lit 0
   /\ lossProb (calculateProbabilities playerCards dealerUpCard deck) = lit 1
   /\ pushProb (calculateProbabilities playerCards dealerUpCard deck) = lit 0)
  /\ exists r : Recommendation,
       getStrategyRecommendation playerCards dealerUpCard deck
         canDouble canSplit = Returns r
       /\ standEV r = lit (-1) /\ hitEV r = lit (-1)
       /\ recommendedAction r
          = if with_default false canSplit then SPLIT else STAND.
Proof.
  intros Hbust.
  assert (Hp : winProb (calculateProbabilities playerCards dealerUpCard deck)
               = lit 0
               /\ lossProb (calculateProbabilities playerCards dealerUpCard deck)
                  = lit 1
               /\ pushProb (calculateProbabilities playerCards dealerUpCard deck)
                  = lit 0).
  { unfold calculateProbabilities.
    destruct (totalRemaining deck =? 0)%nat; [|rewrite Hbust];
      repeat split; reflexivity. }
  split; [exact Hp|]. destruct Hp as (Hw0 & Hl0 & _).
  destruct (recommendation_returns playerCards dealerUpCard deck
              canDouble canSplit)
    as (w & l & h & sorted & Hw & Hl & Hh & _ & Hret).
  assert (Ew : w = Q2Qc 0) by (unfold lit in Hw0; congruence).
  assert (El : l = Q2Qc 1) by (unfold lit in Hl0; congruence).
  assert (Eh : h = (Q2Qc 0 - Q2Qc 1)%Qc).
  { destruct (stand_ev_Fin playerCards dealerUpCard deck)
      as (w' & l' & Hw' & Hl' & Hs).
    assert (w' = w) by congruence. assert (l' = l) by congruence. subst w' l'.
    unfold hit_ev in Hh. cbv zeta in Hh. rewrite Hs in Hh.
    assert (Hge : (total (evaluateHand playerCards) <? 21)%Z = false).
    { pose proof Hbust as Hb. unfold evaluateHand in Hb |- *.
      destruct (fold_left count_card playerCards (0%Z, 0%nat)) as [t0 a0].
      destruct (adjust_aces t0 a0) as [t1 a1]. cbn [isBust total] in *.
      apply Z.gtb_gt in Hb. apply Z.ltb_ge. lia. }
    rewrite Hge in Hh. subst w l. congruence. }
  subst w l h. eexists. split; [exact Hret|].
  cbn [standEV hitEV recommendedAction].
  repeat split; try (apply Fin_eq; reflexivity).
  destruct (with_default true canDouble), (with_default false canSplit);
    reflexivity.
Qed.

Lemma X3_bust_hand_is_lost_witness :
  isBust (evaluateHand [cK; cQ; c5]) = true
  /\ winProb (calculateProbabilities [cK; cQ; c5] c6 initializeDeck) = lit 0.
Proof.
  assert (H : isBust (evaluateHand [cK; cQ; c5]) = true) by reflexivity.
  split; [exact H|].
  exact (proj1 (proj1 (X3_bust_hand_is_lost [cK; cQ; c5] c6 initializeDeck
                         (Some false) (Some false) H))).
Defined.

(** X4.  The estimate and the whole recommendation do not depend on the
    order of the cards of the player. *)
Theorem X4_recommendation_permutation
    (cards cards' : list Rank) (dealerUpCard : Rank) (deck : Deck)
    (canDouble canSplit : option bool) :
  Permutation cards cards' ->
  calculateProbabilities cards dealerUpCard deck
  = calculateProbabilities cards' dealerUpCard deck
  /\ getStrategyRecommendation cards dealerUpCard deck canDouble canSplit
     = getStrategyRecommendation cards' dealerUpCard deck canDouble canSplit.
Proof.
  intros H.
  pose proof (calculateProbabilities_ext cards cards' dealerUpCard deck
                (evaluateHand_perm _ _ H)) as Hc.
  split; [exact Hc|].
  rewrite !getStrategyRecommendation_unfold. cbv zeta.
  rewrite Hc, (hit_ev_perm _ _ dealerUpCard deck H). reflexivity.
Qed.

Lemma X4_recommendation_permutation_witness :
  Permutation [c5; cA; c3] [cA; c3; c5]
  /\ getStrategyRecommendation [c5; cA; c3] c10 initializeDeck None None
     = getStrategyRecommendation [cA; c3; c5] c10 initializeDeck None None.
Proof.
  assert (H : Permutation [c5; cA; c3] [cA; c3; c5]).
  { apply (Permutation_cons_app [cA; c3] [] c5). apply Permutation_refl. }
  split; [exact H|].
  exact (proj2 (X4_recommendation_permutation [c5; cA; c3] [cA; c3; c5] c10
                  initializeDeck None None H)).
Defined.

Section ExpectedValueBounds.

Local Open Scope Qc_scope.


End ExpectedValueBounds.



(** ** Cards given back to the shoe *)

Section ShoeFacts.

Import Terminal Component.

Lemma lastIndexOf_lower (cards : list Rank) (card : Rank) :
  -1 <= lastIndexOf cards card.
Proof.
  induction cards as [|x cards IH]; cbn [lastIndexOf]; [lia|].
  destruct (lastIndexOf cards card >? -1) eqn:E.
  - apply Z.gtb_gt in E. lia.
  - destruct (Rank_eqb x card); lia.
Qed.

Lemma lastIndexOf_absent (cards : list Rank) (card : Rank) :
  ~ In card cards -> lastIndexOf cards card = -1.
Proof.
  induction cards as [|x cards IH]; intros Hin; cbn [lastIndexOf]; [reflexivity|].
  cbn [In] in Hin. rewrite IH by tauto. cbn.
  unfold Rank_eqb. destruct (Rank_eq_dec x card); [tauto | reflexivity].
Qed.

Lemma lastIndexOf_last (l1 l2 : list Rank) (card : Rank) :
  ~ In card l2 ->
  lastIndexOf (l1 ++ card :: l2) card = Z.of_nat (length l1).
Proof.
  intros Hin. induction l1 as [|x l1 IH]; cbn [app lastIndexOf length].
  - rewrite (lastIndexOf_absent _ _ Hin). cbn.
    unfold Rank_eqb. destruct (Rank_eq_dec card card); [reflexivity | tauto].
  - rewrite IH.
    destruct (Z.of_nat (length l1) >? -1) eqn:E; [lia|].
    rewrite Z.gtb_ltb in E. apply Z.ltb_ge in E. lia.
Qed.

Lemma splice1_middle (l1 l2 : list Rank) (x : Rank) :
  splice1 (l1 ++ x :: l2) (length l1) = l1 ++ l2.
Proof.
  unfold splice1. f_equal.
  - rewrite firstn_app, firstn_all, Nat.sub_diag. cbn. apply app_nil_r.
  - induction l1 as [|y l1 IH]; [reflexivity | exact IH].
Qed.

(** The last card of a rank that occurs in a list. *)
Lemma last_occurrence (cards : list Rank) (card : Rank) :
  In card cards ->
  exists l1 l2 : list Rank, cards = l1 ++ card :: l2 /\ ~ In card l2.
Proof.
  induction cards as [|x cards IH]; intros Hin; [contradiction|].
  destruct (in_dec Rank_eq_dec card cards) as [Hc|Hc].
  - destruct (IH Hc) as (l1 & l2 & -> & Hl2).
    exists (x :: l1), l2. split; [reflexivity | exact Hl2].
  - destruct Hin as [->|Hin]; [|contradiction].
    exists [], cards. split; [reflexivity | exact Hc].
Qed.

Lemma totalRemaining_deck_set (d : Deck) (card : Rank) (n : nat) :
  (totalRemaining (deck_set d card n) + d card = totalRemaining d + n)%nat.
Proof.
  unfold totalRemaining, Object_values, deck_keys, deck_set.
  cbn [map fold_left].
  destruct card;
    repeat match goal with
      | |- context [Rank_eq_dec ?a ?b] => destruct (Rank_eq_dec a b);
                                          try discriminate; try contradiction
      end; lia.
Qed.

Lemma removeCard_player_spec (st : State) (card : Rank) :
  removeCard card player st
  = Returns
      {| deck := deck_set (deck st) card (deck st card + 1)%nat;
         playerCards :=
           match lastIndexOf (playerCards st) card with
           | Z.neg _ => playerCards st
           | i => splice1 (playerCards st) (Z.to_nat i)
           end;
         dealerUpCard := dealerUpCard st;
         dealerDownCard := dealerDownCard st |}.
Proof.
  unfold removeCard. pose proof (lastIndexOf_lower (playerCards st) card) as Hl.
  destruct (lastIndexOf (playerCards st) card) eqn:E; try reflexivity.
  assert ((Z.neg p >? -1) = false) as ->
    by (rewrite Z.gtb_ltb; apply Z.ltb_ge; lia).
  reflexivity.
Qed.

End ShoeFacts.

Lemma removeCard_player_last
    (st : Terminal.State) (card : Rank) (l1 l2 : list Rank) :
  Terminal.playerCards st = l1 ++ card :: l2 ->
  ~ In card l2 ->
  Component.removeCard card Terminal.player st
  = Returns
      {| Terminal.deck :=
           deck_set (Terminal.deck st) card (Terminal.deck st card + 1)%nat;
         Terminal.playerCards := l1 ++ l2;
         Terminal.dealerUpCard := Terminal.dealerUpCard st;
         Terminal.dealerDownCard := Terminal.dealerDownCard st |}.
Proof.
  intros Hhand Hl2. rewrite removeCard_player_spec. rewrite Hhand.
  rewrite (lastIndexOf_last l1 l2 card Hl2).
  assert (Hs : match Z.of_nat (length l1) with
               | Z.neg _ => l1 ++ card :: l2
               | i => Component.splice1 (l1 ++ card :: l2) (Z.to_nat i)
               end = l1 ++ l2).
  { destruct (Z.of_nat (length l1)) eqn:E; try lia;
      rewrite <- E, Nat2Z.id; apply splice1_middle. }
  rewrite Hs. reflexivity.
Qed.

(** X6.  [removeCard] takes the last card of the rank out of the hand of
    the player and keeps the order of the others: if the hand is
    [l1 ++ card :: l2] with no such card in [l2], the new hand is
    [l1 ++ l2], and the rank has one more card in the shoe. *)
Theorem X6_removeCard_takes_last_occurrence
    (st : Terminal.State) (card : Rank) (l1 l2 : list Rank) :
  Terminal.playerCards st = l1 ++ card :: l2 ->
  ~ In card l2 ->
  Component.removeCard card Terminal.player st
  = Returns
      {| Terminal.deck :=
           deck_set (Terminal.deck st) card (Terminal.deck st card + 1)%nat;
         Terminal.playerCards := l1 ++ l2;
         Terminal.dealerUpCard := Terminal.dealerUpCard st;
         Terminal.dealerDownCard := Terminal.dealerDownCard st |}.
Proof.
  apply removeCard_player_last.
Qed.

Lemma X6_removeCard_takes_last_occurrence_witness :
  Terminal.playerCards
    {| Terminal.deck := initializeDeck;
       Terminal.playerCards := [c5; cK; c5; c2];
       Terminal.dealerUpCard := None; Terminal.dealerDownCard := None |}
  = [c5; cK] ++ c5 :: [c2]
  /\ ~ In c5 [c2]
  /\ exists st' : Terminal.State,
       Component.removeCard c5 Terminal.player
         {| Terminal.deck := initializeDeck;
            Terminal.playerCards := [c5; cK; c5; c2];
            Terminal.dealerUpCard := None; Terminal.dealerDownCard := None |}
       = Returns st'
       /\ Terminal.playerCards st' = [c5; cK; c2].
Proof.
  assert (H1 : Terminal.playerCards
                 {| Terminal.deck := initializeDeck;
                    Terminal.playerCards := [c5; cK; c5; c2];
                    Terminal.dealerUpCard := None;
                    Terminal.dealerDownCard := None |}
               = [c5; cK] ++ c5 :: [c2]) by reflexivity.
  assert (H2 : ~ In c5 [c2]) by (cbn; intuition discriminate).
  split; [exact H1 | split; [exact H2|]].
  eexists. split.
  - exact (X6_removeCard_takes_last_occurrence _ c5 [c5; cK] [c2] H1 H2).
  - reflexivity.
Defined.

(** X7.  [removeCard] has no guard: whatever the target and the state, it
    puts one card of the rank back into the shoe, one more card in all,
    and touches no other rank; when the player holds no card of the rank,
    the hand stays as it is and the shoe grows all the same. *)
Theorem X7_removeCard_always_credits
    (st : Terminal.State) (card : Rank) (target : Terminal.Target) :
  exists st' : Terminal.State,
    Component.removeCard card target st = Returns st'
    /\ Terminal.deck st' card = S (Terminal.deck st card)
    /\ (forall r : Rank, r <> card -> Terminal.deck st' r = Terminal.deck st r)
    /\ totalRemaining (Terminal.deck st') = S (totalRemaining (Terminal.deck st))
    /\ (target = Terminal.player ->
        ~ In card (Terminal.playerCards st) ->
        Terminal.playerCards st' = Terminal.playerCards st).
Proof.
  assert (Hd : forall d : Deck,
             deck_set d card (d card + 1)%nat card = S (d card)
             /\ (forall r, r <> card ->
                   deck_set d card (d card + 1)%nat r = d r)
             /\ totalRemaining (deck_set d card (d card + 1)%nat)
                = S (totalRemaining d)).
  { intros d. repeat split.
    - unfold deck_set. destruct (Rank_eq_dec card card); [lia | tauto].
    - intros r Hr. unfold deck_set.
      destruct (Rank_eq_dec r card); [tauto | reflexivity].
    - pose proof (totalRemaining_deck_set d card (d card + 1)%nat). lia. }
  destruct (Hd (Terminal.deck st)) as (H1 & H2 & H3).
  destruct target.
  - rewrite removeCard_player_spec. eexists. split; [reflexivity|].
    cbn [Terminal.deck Terminal.playerCards].
    repeat split; try assumption.
    intros _ Hin. rewrite (lastIndexOf_absent _ _ Hin). reflexivity.
  - eexists. split; [reflexivity|]. cbn [Terminal.deck].
    repeat split; assumption.
  - eexists. split; [reflexivity|]. cbn [Terminal.deck].
    repeat split; assumption.
  - eexists. split; [reflexivity|]. cbn [Terminal.deck].
    repeat split; assumption.
Qed.

Lemma X7_removeCard_always_credits_witness :
  Terminal.player = Terminal.player
  /\ ~ In cA (Terminal.playerCards freshState)
  /\ exists st' : Terminal.State,
       Component.removeCard cA Terminal.player freshState = Returns st'
       /\ Terminal.deck st' cA = 25%nat
       /\ Terminal.playerCards st' = [].
Proof.
  assert (H1 : Terminal.player = Terminal.player) by reflexivity.
  assert (H2 : ~ In cA (Terminal.playerCards freshState))
    by (cbn; tauto).
  split; [exact H1 | split; [exact H2|]].
  destruct (X7_removeCard_always_credits freshState cA Terminal.player)
    as (st' & Hret & Hc & _ & _ & Hhand).
  exists st'. split; [exact Hret|]. split; [exact Hc|].
  exact (Hhand H1 H2).
Defined.

(** X8.  Drawing and giving back undo each other: after [addCard] of an
    available rank to the player and [removeCard] of the same rank, the
    hand, the dealer cards and the count of every rank are as before; so
    they are for the dealer up card when there was none. *)
Theorem X8_addCard_removeCard_round_trip
    (st : Terminal.State) (card : Rank) :
  (0 < Terminal.deck st card)%nat ->
  (exists st1 st2 : Terminal.State,
     Terminal.addCard card Terminal.player st = Returns st1
     /\ Component.removeCard card Terminal.player st1 = Returns st2
     /\ Terminal.playerCards st2 = Terminal.playerCards st
     /\ Terminal.dealerUpCard st2 = Terminal.dealerUpCard st
     /\ Terminal.dealerDownCard st2 = Terminal.dealerDownCard st
     /\ forall r : Rank, Terminal.deck st2 r = Terminal.deck st r)
  /\ (Terminal.dealerUpCard st = None ->
      exists st1 st2 : Terminal.State,
        Terminal.addCard card Terminal.dealer_up st = Returns st1
        /\ Component.removeCard card Terminal.dealer_up st1 = Returns st2
        /\ Terminal.playerCards st2 = Terminal.playerCards st
        /\ Terminal.dealerUpCard st2 = Terminal.dealerUpCard st
        /\ Terminal.dealerDownCard st2 = Terminal.dealerDownCard st
        /\ forall r : Rank, Terminal.deck st2 r = Terminal.deck st r).
Proof.
  intros Hpos.
  assert (Hdeck : forall r : Rank,
             deck_set
               (deck_set (Terminal.deck st) card (Terminal.deck st card - 1)%nat)
               card
               (deck_set (Terminal.deck st) card
                  (Terminal.deck st card - 1)%nat card + 1)%nat r
             = Terminal.deck st r).
  { intros r. unfold deck_set.
    destruct (Rank_eq_dec r card) as [->|Hne]; [|reflexivity].
    destruct (Rank_eq_dec card card); [lia | tauto]. }
  assert (Hguard : (Terminal.deck st card <=? 0)%nat = false)
    by (apply Nat.leb_gt; exact Hpos).
  split.
  - unfold Terminal.addCard. rewrite Hguard.
    eexists. eexists. split; [reflexivity|]. split.
    + apply (removeCard_player_last _ card (Terminal.playerCards st) []);
        [reflexivity | intros []].
    + cbn. rewrite app_nil_r. repeat split. apply Hdeck.
  - intros Hup. unfold Terminal.addCard. rewrite Hguard.
    eexists. eexists. split; [reflexivity|]. split; [reflexivity|].
    cbn. repeat split; auto.
Qed.

Lemma X8_addCard_removeCard_round_trip_witness :
  (0 < Terminal.deck freshState c7)%nat
  /\ Terminal.dealerUpCard freshState = None
  /\ exists st1 st2 : Terminal.State,
       Terminal.addCard c7 Terminal.dealer_up freshState = Returns st1
       /\ Component.removeCard c7 Terminal.dealer_up st1 = Returns st2
       /\ forall r : Rank, Terminal.deck st2 r = Terminal.deck freshState r.
Proof.
  assert (H1 : (0 < Terminal.deck freshState c7)%nat) by (vm_compute; lia).
  assert (H2 : Terminal.dealerUpCard freshState = None) by reflexivity.
  split; [exact H1 | split; [exact H2|]].
  destruct (proj2 (X8_addCard_removeCard_round_trip freshState c7 H1) H2)
    as (st1 & st2 & Ha & Hr & _ & _ & _ & Hd).
  exists st1, st2. split; [exact Ha | split; [exact Hr | exact Hd]].
Defined.

(** ** The component under the events of the user *)

Section ComponentFacts.

Import Terminal Component.

Lemma addCard_spec (st : State) (card : Rank) (target : Target) :
  (0 < deck st card)%nat ->
  addCard card target st
  = Returns
      {| deck := deck_set (deck st) card (deck st card - 1)%nat;
         playerCards :=
           match target with
           | player => playerCards st ++ [card]
           | _ => playerCards st
           end;
         dealerUpCard :=
           match target with
           | dealer_up => Some card
           | _ => dealerUpCard st
           end;
         dealerDownCard :=
           match target with
           | dealer_down => Some card
           | _ => dealerDownCard st
           end |}.
Proof.
  intros Hpos. unfold addCard.
  assert ((deck st card <=? 0)%nat = false) as -> by (apply Nat.leb_gt; lia).
  destruct target; reflexivity.
Qed.

Lemma count_occ_snoc (l : list Rank) (c r : Rank) :
  count_occ Rank_eq_dec (l ++ [c]) r
  = (count_occ Rank_eq_dec l r + if Rank_eq_dec c r then 1 else 0)%nat.
Proof.
  rewrite count_occ_app. cbn [count_occ].
  destruct (Rank_eq_dec c r); lia.
Qed.

Lemma count_occ_middle (l1 l2 : list Rank) (c r : Rank) :
  count_occ Rank_eq_dec (l1 ++ c :: l2) r
  = (count_occ Rank_eq_dec (l1 ++ l2) r + if Rank_eq_dec c r then 1 else 0)%nat.
Proof.
  rewrite !count_occ_app. cbn [count_occ].
  destruct (Rank_eq_dec c r); lia.
Qed.

Lemma initializeDeck_full (r : Rank) : initializeDeck r = 24%nat.
Proof. destruct r; reflexivity. Qed.

Lemma deck_set_same (d : Deck) (c : Rank) (n : nat) : deck_set d c n c = n.
Proof. unfold deck_set. destruct (Rank_eq_dec c c); [reflexivity | tauto]. Qed.

Lemma deck_set_other (d : Deck) (c r : Rank) (n : nat) :
  r <> c -> deck_set d c n r = d r.
Proof.
  intros H. unfold deck_set. destruct (Rank_eq_dec r c); [tauto | reflexivity].
Qed.

(** The case analysis on whether [r] is the rank that moved. *)
Ltac moved_rank c r :=
  destruct (Rank_eq_dec c r) as [<-|?];
  [ rewrite ?deck_set_same
  | rewrite ?deck_set_other by congruence ];
  repeat match goal with
    | |- context [Rank_eq_dec ?a ?b] =>
        destruct (Rank_eq_dec a b); try congruence
    end.

Lemma handle_cards_conserved (app : App) (ev : Event) :
  cards_conserved (cards app) -> cards_conserved (cards (handle app ev)).
Proof.
  destruct app as [st b c ph hist]. cbn [cards]. intros H.
  pose proof H as [Hcount Hdown].
  destruct ev; cbn [handle cards].
  - (* a card for the player *)
    destruct (deck st card =? 0)%nat eqn:E; [exact H|].
    apply Nat.eqb_neq in E. rewrite addCard_spec by lia.
    cbn [cards with_cards value_of].
    split; [|exact Hdown]. intros r. specialize (Hcount r).
    unfold on_table in *. cbn [deck playerCards dealerUpCard] in *.
    rewrite count_occ_snoc. moved_rank card r; lia.
  - (* a card of the player given back *)
    destruct (nth_error (playerCards st) index) as [card|] eqn:E; [|exact H].
    apply nth_error_In in E.
    destruct (last_occurrence _ _ E) as (l1 & l2 & Hhand & Hl2).
    rewrite (removeCard_player_last st card l1 l2 Hhand Hl2).
    cbn [cards with_cards value_of].
    split; [|exact Hdown]. intros r. specialize (Hcount r).
    unfold on_table in *. cbn [deck playerCards dealerUpCard] in *.
    rewrite Hhand, count_occ_middle in Hcount.
    moved_rank card r; lia.
  - (* the up card of the dealer *)
    destruct (dealerUpCard st) as [up|] eqn:Eup; [exact H|].
    destruct (deck st card =? 0)%nat eqn:E; [exact H|].
    apply Nat.eqb_neq in E. rewrite addCard_spec by lia.
    cbn [cards with_cards value_of].
    split; [|exact Hdown]. intros r. specialize (Hcount r).
    unfold on_table in *. rewrite Eup in Hcount.
    cbn [deck playerCards dealerUpCard] in *.
    moved_rank card r; lia.
  - (* the up card given back *)
    destruct (dealerUpCard st) as [card|] eqn:Eup; [|exact H].
    cbn [cards with_cards value_of removeCard].
    split; [|exact Hdown]. intros r. specialize (Hcount r).
    unfold on_table in *. rewrite Eup in Hcount.
    cbn [deck playerCards dealerUpCard] in *.
    moved_rank card r; lia.
  - (* a new hand *)
    cbn [resetGame cards]. split; [|reflexivity]. intros r. unfold on_table.
    cbn [deck playerCards dealerUpCard count_occ]. rewrite initializeDeck_full.
    reflexivity.
  - exact H.
  - destruct result, (currentAnalysis st) as [[a|]|e];
      cbn [finishHand cards]; exact H.
  - destruct ((1 <=? value) && (value <=? 500)); exact H.
Qed.

Lemma run_cards_conserved (events : list Event) : forall app : App,
  cards_conserved (cards app) -> cards_conserved (cards (run events app)).
Proof.
  induction events as [|ev events IH]; intros app H; [exact H|].
  cbn [run fold_left]. apply IH. apply handle_cards_conserved. exact H.
Qed.

End ComponentFacts.

(** X9.  Conservation of the cards.  Whatever the user clicks, from the
    start of the component, every rank has 24 cards between the shoe, the
    hand of the player and the up card of the dealer; so no count in the
    shoe is above 24, the shoe never holds more than 312 cards, and no
    dealer down card is ever set. *)
Theorem X9_cards_are_conserved (events : list Component.Event) (r : Rank) :
  let st := Component.cards (Component.run events Component.initialApp) in
  (Terminal.deck st r + on_table st r = 24)%nat
  /\ (Terminal.deck st r <= 24)%nat
  /\ (totalRemaining (Terminal.deck st) <= 312)%nat
  /\ Terminal.dealerDownCard st = None.
Proof.
  intros st.
  assert (H : cards_conserved st).
  { apply run_cards_conserved. split; [|reflexivity].
    intros r'. unfold on_table. cbn. rewrite initializeDeck_full. reflexivity. }
  destruct H as [Hcount Hdown].
  repeat split; try assumption.
  - apply Hcount.
  - specialize (Hcount r). lia.
  - unfold totalRemaining, Object_values, deck_keys. cbn [map fold_left].
    pose proof (Hcount cA). pose proof (Hcount c2). pose proof (Hcount c3).
    pose proof (Hcount c4). pose proof (Hcount c5). pose proof (Hcount c6).
    pose proof (Hcount c7). pose proof (Hcount c8). pose proof (Hcount c9).
    pose proof (Hcount c10). pose proof (Hcount cJ). pose proof (Hcount cQ).
    pose proof (Hcount cK). lia.
Qed.

Section MoneyFacts.

Import Terminal Component.

Lemma sum_num_snoc (l : list num) (x : num) :
  sum_num (l ++ [x]) = (sum_num l + x)%num.
Proof.
  unfold sum_num. induction l as [|y l IH]; cbn [app fold_right].
  - rewrite add_0_r. rewrite add_comm. rewrite add_0_r. reflexivity.
  - rewrite IH. apply add_assoc.
Qed.

(** [currentAnalysis] is [null] exactly without a card of the player or
    without an up card, and never fails. *)
Lemma currentAnalysis_cases (st : State) :
  (currentAnalysis st = Returns None
   /\ (playerCards st = [] \/ dealerUpCard st = None))
  \/ (exists (up : Rank) (r : Recommendation),
        dealerUpCard st = Some up /\ playerCards st <> []
        /\ getStrategyRecommendation (playerCards st) up (deck st)
             (Some (length (playerCards st) =? 2)%nat)
             (Some ((length (playerCards st) =? 2)%nat
                    && first_two_equal (playerCards st)))
           = Returns r
        /\ currentAnalysis st
           = Returns
               (Some {| probs := calculateProbabilities (playerCards st) up
                                   (deck st);
                        strategy := r |})).
Proof.
  unfold currentAnalysis.
  destruct (dealerUpCard st) as [up|]; [|left; split; [reflexivity | tauto]].
  destruct (length (playerCards st) =? 0)%nat eqn:E.
  { apply Nat.eqb_eq, length_zero_iff_nil in E.
    left. split; [reflexivity | tauto]. }
  right.
  destruct (recommendation_returns (playerCards st) up (deck st)
              (Some (length (playerCards st) =? 2)%nat)
              (Some ((length (playerCards st) =? 2)%nat
                     && first_two_equal (playerCards st))))
    as (w & l & h & sorted & _ & _ & _ & _ & Hret).
  match type of Hret with _ = Returns ?r => exists up, r end.
  rewrite Hret.
  split; [reflexivity|].
  split; [intros Hnil; rewrite Hnil in E; discriminate E|].
  split; reflexivity.
Qed.

Lemma payout_of_slider (result : Result) (x : num) :
  slider_bet x -> exists q : Qc, payout_of result x = Fin q.
Proof.
  intros (n & _ & ->). unfold of_Z, lit.
  destruct result; cbn [payout_of mul neg]; eexists; reflexivity.
Qed.

Lemma finishHand_books_balanced (result : Result) (app : App) :
  result <> other_result ->
  playerCards (cards app) <> [] ->
  dealerUpCard (cards app) <> None ->
  books_balanced app -> books_balanced (finishHand result app).
Proof.
  intros Hres Hhand Hup (Hsum & Hlast & Hbet & Hphase & (q & Hq) & Hall).
  destruct (payout_of_slider result _ Hbet) as (p & Hp).
  unfold books_balanced, finishHand.
  cbn [bankroll gameHistory currentBet gamePhase].
  rewrite !map_app. cbn [map h_payout h_bankroll].
  rewrite sum_num_snoc, last_last, add_assoc, <- Hsum.
  repeat split; try assumption; try discriminate.
  - rewrite Hq, Hp. eexists. reflexivity.
  - apply in_app_or in H. destruct H as [H|[<-|[]]];
      [apply (Hall e H) | exact Hhand].
  - apply in_app_or in H. destruct H as [H|[<-|[]]];
      [apply (Hall e H) | exact Hup].
  - apply in_app_or in H. destruct H as [H|[<-|[]]];
      [apply (Hall e H) | exact Hres].
  - apply in_app_or in H. destruct H as [H|[<-|[]]];
      [apply (Hall e H) | exact Hbet].
  - apply in_app_or in H. destruct H as [H|[<-|[]]];
      [apply (Hall e H) | reflexivity].
Qed.

Lemma handle_books_balanced (app : App) (ev : Event) :
  books_balanced app -> books_balanced (handle app ev).
Proof.
  intros H. pose proof H as (Hsum & Hlast & Hbet & Hphase & Hfin & Hall).
  destruct ev; cbn [handle].
  - destruct (deck (cards app) card =? 0)%nat; exact H.
  - destruct (nth_error _ _); exact H.
  - destruct (dealerUpCard (cards app));
      [|destruct (deck (cards app) card =? 0)%nat]; exact H.
  - destruct (dealerUpCard (cards app)); exact H.
  - unfold books_balanced, resetGame.
    cbn [bankroll gameHistory currentBet gamePhase].
    repeat split; try assumption; try discriminate; apply (Hall e H0).
  - unfold books_balanced. cbn [bankroll gameHistory currentBet gamePhase].
    repeat split; try assumption; try discriminate; apply (Hall e H0).
  - destruct (currentAnalysis_cases (cards app))
      as [[-> _] | (up & r & Hup & Hhand & _ & ->)].
    + destruct result; exact H.
    + destruct result;
        try (apply finishHand_books_balanced;
             [discriminate | exact Hhand | rewrite Hup; discriminate | exact H]).
      exact H.
  - destruct ((1 <=? value) && (value <=? 500)) eqn:E; [|exact H].
    apply andb_true_iff in E. destruct E as [E1 E2].
    apply Z.leb_le in E1. apply Z.leb_le in E2.
    unfold books_balanced. cbn [bankroll gameHistory currentBet gamePhase].
    repeat split; try assumption; try apply (Hall e H0).
    exists value. split; [lia | reflexivity].
Qed.

Lemma run_books_balanced (events : list Event) : forall app : App,
  books_balanced app -> books_balanced (run events app).
Proof.
  induction events as [|ev events IH]; intros app H; [exact H|].
  cbn [run fold_left]. apply IH. apply handle_books_balanced. exact H.
Qed.

End MoneyFacts.

(** X10.  The books balance.  Whatever the user does, from the start of
    the component: the bankroll is 1000 plus the payouts of the logged
    hands, and it is the balance of the last logged hand; the bet is an
    integer from 1 to 500; the phase is never 'playing'; the bankroll is
    a finite number; and every logged hand has a card of the player, an
    up card, one of the four results, and the payout of that result on its
    bet. *)
Theorem X10_books_are_balanced (events : list Component.Event) :
  let app := Component.run events Component.initialApp in
  Component.bankroll app
  = (lit 1000
     + sum_num (map Component.h_payout (Component.gameHistory app)))%num
  /\ last (map Component.h_bankroll (Component.gameHistory app)) (lit 1000)
     = Component.bankroll app
  /\ (exists n : Z, 1 <= n <= 500 /\ Component.currentBet app = of_Z n)
  /\ Component.gamePhase app <> Component.playing
  /\ (exists q : Qc, Component.bankroll app = Fin q)
  /\ forall e : Component.HistoryEntry,
       In e (Component.gameHistory app) ->
       Component.h_playerCards e <> []
       /\ Component.h_dealerUpCard e <> None
       /\ Component.h_result e <> Component.other_result
       /\ (exists n : Z, 1 <= n <= 500 /\ Component.h_bet e = of_Z n)
       /\ Component.h_payout e
          = Component.payout_of (Component.h_result e) (Component.h_bet e).
Proof.
  intros app. apply (run_books_balanced events Component.initialApp).
  unfold books_balanced, Component.initialApp.
  cbn [Component.bankroll Component.gameHistory Component.currentBet
       Component.gamePhase map last].
  split; [symmetry; apply add_0_r|].
  split; [reflexivity|].
  split; [exists 10; split; [lia | reflexivity]|].
  split; [discriminate|].
  split; [eexists; reflexivity|].
  intros e [].
Qed.

(** ** The session log *)

Section LogFacts.

Import Component.

Lemma map_index_nth {A B : Type} (f : A -> nat -> B) (l : list A) :
  forall (i k : nat),
    nth_error (map_index f l i) k
    = option_map (fun x => f x (i + k)%nat) (nth_error l k).
Proof.
  induction l as [|x l IH]; intros i k; cbn [map_index].
  - destruct k; reflexivity.
  - destruct k as [|k]; cbn [nth_error option_map].
    + rewrite Nat.add_0_r. reflexivity.
    + rewrite IH. replace (S i + k)%nat with (i + S k)%nat by lia.
      reflexivity.
Qed.

Lemma map_index_snd {A : Type} (g : nat -> Z) (l : list A) : forall i : nat,
  map snd (map_index (fun x index => (g index, x)) l i) = l.
Proof.
  induction l as [|x l IH]; intros i; cbn [map_index map snd];
    [reflexivity | rewrite IH; reflexivity].
Qed.

Lemma slice_last8_skipn {A : Type} (l : list A) :
  slice_last8 l = skipn (length l - 8) l.
Proof.
  unfold slice_last8. f_equal. lia.
Qed.

End LogFacts.

(** X11.  The session log shows the last eight hands, in their order, and
    all of them when there are fewer.  The number shown with a row is the
    place of the hand in the history when there are eight hands or more;
    with fewer it is too small by the number of hands missing to eight, so
    that the first row of a short log has a number below 1. *)
Theorem X11_session_log_rows (gameHistory : list Component.HistoryEntry) :
  length (Component.session_log gameHistory)
  = Nat.min 8 (length gameHistory)
  /\ map snd (Component.session_log gameHistory)
     = skipn (length gameHistory - 8) gameHistory
  /\ forall (k : nat) (number : Z) (hand : Component.HistoryEntry),
       nth_error (Component.session_log gameHistory) k = Some (number, hand) ->
       nth_error gameHistory (length gameHistory - 8 + k) = Some hand
       /\ ((8 <= length gameHistory)%nat ->
           number = Z.of_nat (length gameHistory - 8 + k) + 1)
       /\ ((length gameHistory < 8)%nat ->
           number
           = Z.of_nat (length gameHistory - 8 + k) + 1
             - Z.of_nat (8 - length gameHistory)
           /\ number <= Z.of_nat k).
Proof.
  unfold Component.session_log. rewrite slice_last8_skipn.
  split; [|split].
  - rewrite <- (length_map snd), map_index_snd, length_skipn. lia.
  - apply map_index_snd.
  - intros k number hand H. rewrite map_index_nth in H.
    rewrite nth_error_skipn in H.
    destruct (nth_error gameHistory (length gameHistory - 8 + k)) as [e|] eqn:E;
      [|discriminate H].
    cbn [option_map] in H. injection H as Hn He. subst e.
    split; [reflexivity|].
    assert (Hk : (length gameHistory - 8 + k < length gameHistory)%nat)
      by (apply nth_error_Some; rewrite E; discriminate).
    split; intros Hlen; lia.
Qed.

Lemma X11_session_log_rows_witness :
  nth_error (Component.session_log [sampleEntry; sampleEntry; sampleEntry]) 0
  = Some (-4, sampleEntry)
  /\ (length [sampleEntry; sampleEntry; sampleEntry] < 8)%nat
  /\ -4 <= Z.of_nat 0.
Proof.
  assert (H : nth_error
                (Component.session_log [sampleEntry; sampleEntry; sampleEntry])
                0 = Some (-4, sampleEntry)) by reflexivity.
  assert (Hlen : (length [sampleEntry; sampleEntry; sampleEntry] < 8)%nat)
    by (cbn; lia).
  split; [exact H | split; [exact Hlen|]].
  exact (proj2 (proj2 (proj2 (proj2 (proj2 (X11_session_log_rows
                                              [sampleEntry; sampleEntry;
                                               sampleEntry]))
                                0%nat (-4) sampleEntry H)) Hlen)).
Defined.

(** ** The analysis shown to the user *)

Section AnalysisFacts.

Import Terminal Component.

Local Open Scope Qc_scope.

(** The keys and values of [expectedValues]. *)
Lemma recommendation_lookup
    (playerCards : list Rank) (dealerUpCard : Rank) (deck : Deck)
    (canDouble canSplit : option bool) (r : Recommendation) :
  getStrategyRecommendation playerCards dealerUpCard deck canDouble canSplit
  = Returns r ->
  forall a : Action,
    obj_get (expectedValues r) a
    = if eligible (with_default true canDouble)
           (with_default false canSplit) a
      then Some (action_value (standEV r) (hitEV r) a)
      else None.
Proof.
  destruct (recommendation_returns playerCards dealerUpCard deck
              canDouble canSplit)
    as (w & l & h & sorted & _ & _ & _ & Hperm & Hret).
  intros Hr. rewrite Hret in Hr. injection Hr as <-.
  cbn [expectedValues standEV hitEV].
  remember (w - l) as s eqn:Hs. clear Hs Hret w l.
  generalize dependent (with_default false canSplit).
  generalize dependent (with_default true canDouble).
  intros cD cS Hperm.
  assert (Hnd : NoDup (map action sorted)).
  { apply (Permutation_NoDup
             (Permutation_sym (Permutation_map action Hperm))).
    destruct cD, cS; cbn; repeat constructor; cbn; intuition discriminate. }
  assert (Hmem : forall x : ActionEV,
             In x (kept_candidates s h cD cS) ->
             obj_get (fold_left (fun acc a => obj_set acc (action a) (ev a))
                        sorted []) (action x) = Some (ev x)).
  { intros x Hx. apply obj_get_fold_member; [exact Hnd|].
    apply (Permutation_in x (Permutation_sym Hperm) Hx). }
  assert (Hother : forall k : Action,
             ~ In k (map action (kept_candidates s h cD cS)) ->
             obj_get (fold_left (fun acc a => obj_set acc (action a) (ev a))
                        sorted []) k = None).
  { intros k Hk. rewrite obj_get_fold_other; [reflexivity|].
    intros Hin. apply Hk.
    apply (Permutation_in k (Permutation_map action Hperm) Hin). }
  intros a. destruct a, cD, cS; cbn [eligible action_value];
    first [ apply (Hmem {| action := STAND; ev := Fin s |}); cbn; tauto
          | apply (Hmem {| action := HIT; ev := Fin h |}); cbn; tauto
          | apply (Hmem {| action := DOUBLE; ev := Fin (h * Q2Qc 2) |});
            cbn; tauto
          | apply (Hmem {| action := SPLIT; ev := Fin (s * Q2Qc 0.9) |});
            cbn; tauto
          | apply Hother; cbn; intuition discriminate ].
Qed.

Lemma pair_of_equal_ranks (hand : list Rank) :
  (length hand =? 2)%nat && first_two_equal hand = true
  <-> exists c : Rank, hand = [c; c].
Proof.
  split.
  - intros H. apply andb_true_iff in H. destruct H as [Hlen Heq].
    apply Nat.eqb_eq in Hlen.
    destruct hand as [|a [|b [|c hand]]]; try discriminate Hlen.
    unfold first_two_equal in Heq. cbn in Heq. unfold Rank_eqb in Heq.
    destruct (Rank_eq_dec a b) as [->|]; [|discriminate].
    exists b. reflexivity.
  - intros [c ->]. cbn. unfold Rank_eqb.
    destruct (Rank_eq_dec c c); [reflexivity | tauto].
Qed.

End AnalysisFacts.

(** X12.  The analysis is absent exactly without a card of the player or
    without an up card of the dealer, and it never fails.  When it is
    there, its estimate is the one of the hand, DOUBLE is among the
    expected values exactly when the player holds two cards, and SPLIT
    exactly when the two cards are of the same rank: two different ranks
    that both count 10 cannot be split. *)
Theorem X12_analysis_eligibility (st : Terminal.State) :
  (Component.currentAnalysis st = Returns None
   <-> Terminal.playerCards st = [] \/ Terminal.dealerUpCard st = None)
  /\ forall up : Rank,
       Terminal.dealerUpCard st = Some up ->
       Terminal.playerCards st <> [] ->
       exists a : Component.Analysis,
         Component.currentAnalysis st = Returns (Some a)
         /\ Component.probs a
            = calculateProbabilities (Terminal.playerCards st) up
                (Terminal.deck st)
         /\ (obj_get (expectedValues (Component.strategy a)) DOUBLE <> None
             <-> length (Terminal.playerCards st) = 2%nat)
         /\ (obj_get (expectedValues (Component.strategy a)) SPLIT <> None
             <-> exists c : Rank, Terminal.playerCards st = [c; c])
         /\ obj_get (expectedValues (Component.strategy a)) STAND <> None
         /\ obj_get (expectedValues (Component.strategy a)) HIT <> None.
Proof.
  destruct (currentAnalysis_cases st)
    as [[Hnone Hwhy] | (up & r & Hup & Hhand & Hrec & Hsome)].
  - split; [tauto|]. intros up Hup Hhand.
    destruct Hwhy as [H|H]; [contradiction | congruence].
  - split.
    + rewrite Hsome. split; [discriminate|].
      intros [H|H]; [contradiction | congruence].
    + intros up' Hup' _. assert (up' = up) by congruence. subst up'.
      eexists. split; [exact Hsome|].
      cbn [Component.probs Component.strategy].
      pose proof (recommendation_lookup _ _ _ _ _ r Hrec) as Hlook.
      rewrite !Hlook. cbn [eligible with_default].
      split; [reflexivity|]. split; [|split; [|split; discriminate]].
      * destruct (length (Terminal.playerCards st) =? 2)%nat eqn:E.
        -- apply Nat.eqb_eq in E. split; [intros _; exact E | discriminate].
        -- apply Nat.eqb_neq in E. split; [intros H; congruence | tauto].
      * rewrite <- pair_of_equal_ranks.
        destruct ((length (Terminal.playerCards st) =? 2)%nat
                  && Component.first_two_equal (Terminal.playerCards st));
          split; congruence.
Qed.

Lemma X12_analysis_eligibility_witness :
  Terminal.dealerUpCard (tableState [c10; cK] c6) = Some c6
  /\ Terminal.playerCards (tableState [c10; cK] c6) <> []
  /\ exists a : Component.Analysis,
       Component.currentAnalysis (tableState [c10; cK] c6) = Returns (Some a)
       /\ (obj_get (expectedValues (Component.strategy a)) SPLIT <> None
           <-> exists c : Rank,
                 Terminal.playerCards (tableState [c10; cK] c6) = [c; c]).
Proof.
  assert (H1 : Terminal.dealerUpCard (tableState [c10; cK] c6) = Some c6)
    by reflexivity.
  assert (H2 : Terminal.playerCards (tableState [c10; cK] c6) <> [])
    by discriminate.
  split; [exact H1 | split; [exact H2|]].
  destruct (proj2 (X12_analysis_eligibility (tableState [c10; cK] c6)) c6 H1 H2)
    as (a & Ha & _ & _ & Hsplit & _).
  exists a. split; [exact Ha | exact Hsplit].
Defined.

(** ** The bet of the next round *)

Section BetFacts.

Import Terminal Component.

Local Open Scope Qc_scope.

Lemma Qc_one_neq_zero : Q2Qc 1 <> Q2Qc 0.
Proof. intros H. discriminate (f_equal (fun q : Qc => Qnum q) H). Qed.

(** The Kelly fraction does not depend on the bankroll. *)
Lemma bet_sizing_kelly (bankroll : num) (p q : Qc) (payout : option Qc) :
  with_default (Q2Qc 1) payout <> Q2Qc 0 ->
  exists r : BetRecommendation,
    calculateOptimalBetForNextRound bankroll (Fin p) (Fin q)
      (option_map Fin payout) = Returns r
    /\ kellyFraction r
       = Fin ((with_default (Q2Qc 1) payout * p - q)
              / with_default (Q2Qc 1) payout).
Proof.
  intros Hb. unfold calculateOptimalBetForNextRound. cbv zeta.
  eexists. split; [reflexivity|]. cbn [kellyFraction].
  change (with_default (lit 1) (option_map Fin payout))
    with (with_default (Fin (Q2Qc 1)) (option_map Fin payout)).
  rewrite with_default_Fin. cbn [mul sub add neg].
  rewrite div_Fin by exact Hb. reflexivity.
Qed.


(** The result for a bankroll of 0. *)
Lemma bet_sizing_zero (p q : Qc) (payout : option Qc) :
  with_default (Q2Qc 1) payout <> Q2Qc 0 ->
  exists k : Qc,
    calculateOptimalBetForNextRound (Fin (Q2Qc 0)) (Fin p) (Fin q)
      (option_map Fin payout)
    = Returns
        {| kellyFraction := Fin k; recommendedBet := lit 1;
           betPercentage := PInf |}.
Proof.
  intros Hb. unfold calculateOptimalBetForNextRound. cbv zeta.
  change (with_default (lit 1) (option_map Fin payout))
    with (with_default (Fin (Q2Qc 1)) (option_map Fin payout)).
  rewrite with_default_Fin.
  set (b := with_default (Q2Qc 1) payout) in *.
  assert (Hk : ((Fin b * Fin p - Fin q) / Fin b)%num
               = Fin ((b * p - q) / b)).
  { cbn [mul sub add neg]. rewrite div_Fin by exact Hb. reflexivity. }
  rewrite Hk.
  assert (Hz : (Fin ((b * p - q) / b) * lit 0.5 * Fin (Q2Qc 0))%num
               = Fin (Q2Qc 0)).
  { unfold lit. cbn [mul]. apply f_equal. ring. }
  rewrite Hz. eexists. reflexivity.
Qed.

End BetFacts.



Section NextRoundFacts.

Import Terminal Component.

Local Open Scope Qc_scope.

(** The analysis and the bet of the next round, when a hand is on the
    table. *)
Lemma nextRoundBetting_present (app : App) (up : Rank) :
  dealerUpCard (cards app) = Some up ->
  playerCards (cards app) <> [] ->
  exists (w l : Qc) (r : Recommendation) (bet : BetRecommendation),
    winProb (calculateProbabilities (playerCards (cards app)) up
               (deck (cards app))) = Fin w
    /\ lossProb (calculateProbabilities (playerCards (cards app)) up
                   (deck (cards app))) = Fin l
    /\ (Q2Qc 0 <= w /\ w <= Q2Qc 1) /\ (Q2Qc 0 <= l /\ l <= Q2Qc 1)
    /\ standEV r = Fin (w - l)
    /\ currentAnalysis (cards app)
       = Returns
           (Some {| probs := calculateProbabilities (playerCards (cards app))
                               up (deck (cards app));
                    strategy := r |})
    /\ calculateOptimalBetForNextRound (bankroll app) (Fin w) (Fin l) None
       = Returns bet
    /\ nextRoundBetting app = Returns (Some bet).
Proof.
  intros Hup Hhand.
  destruct (currentAnalysis_cases (cards app))
    as [[_ [H|H]] | (up' & r & Hup' & _ & Hrec & Hsome)];
    [contradiction | congruence |].
  assert (up' = up) by congruence. subst up'.
  destruct (calculateProbabilities_shape (playerCards (cards app)) up
              (deck (cards app)))
    as (w & l & p & d & Hshape & _ & Hwb & Hlb & _).
  destruct (recommendation_returns (playerCards (cards app)) up
              (deck (cards app))
              (Some (length (playerCards (cards app)) =? 2)%nat)
              (Some ((length (playerCards (cards app)) =? 2)%nat
                     && first_two_equal (playerCards (cards app)))))
    as (w' & l' & h & sorted & Hw' & Hl' & _ & _ & Hret).
  rewrite Hshape in Hw', Hl'. cbn [winProb lossProb] in Hw', Hl'.
  assert (w' = w) by congruence. assert (l' = l) by congruence. subst w' l'.
  rewrite Hret in Hrec. injection Hrec as Hr.
  destruct (bet_sizing_kelly (bankroll app) w l None Qc_one_neq_zero)
    as (bet & Hbet & _).
  exists w, l, r, bet. rewrite Hshape. cbn [winProb lossProb].
  split; [reflexivity|]. split; [reflexivity|].
  split; [exact Hwb|]. split; [exact Hlb|].
  split; [rewrite <- Hr; reflexivity|].
  split; [rewrite <- Hshape; exact Hsome|].
  cbn [option_map] in Hbet. split; [exact Hbet|].
  unfold nextRoundBetting. rewrite Hsome. cbn [probs].
  rewrite Hshape. cbn [winProb lossProb]. rewrite Hbet. reflexivity.
Qed.

End NextRoundFacts.



Section NaturalFacts.

Import Terminal Component.

Local Open Scope Qc_scope.

(** The estimate of a natural on a shoe that is not empty. *)
Lemma natural_estimate (hand : list Rank) (up : Rank) (d : Deck) :
  isBlackjack (evaluateHand hand) = true ->
  (0 < totalRemaining d)%nat ->
  exists w : Qc,
    winProb (calculateProbabilities hand up d) = Fin w
    /\ lossProb (calculateProbabilities hand up d) = Fin (Q2Qc 0)
    /\ Q2Qc 0.69 <= w
    /\ hit_ev hand up d = Fin (w - Q2Qc 0).
Proof.
  intros Hbj Ht.
  assert (Hbust : isBust (evaluateHand hand) = false
                  /\ (21 <=? total (evaluateHand hand))%Z = true).
  { destruct (natural_hands hand Hbj) as (t & Ht10 & [-> | ->]);
      destruct t; try discriminate Ht10; split; reflexivity. }
  destruct Hbust as [Hbust H21].
  assert (Hest : exists w : Qc,
             winProb (calculateProbabilities hand up d) = Fin w
             /\ lossProb (calculateProbabilities hand up d) = Fin (Q2Qc 0)
             /\ Q2Qc 0.69 <= w).
  { rewrite calculateProbabilities_positive by exact Ht. cbv zeta.
    rewrite Hbust, Hbj. cbn [winProb lossProb]. unfold lit.
    destruct (Rank_eqb up cA);
      [| destruct (getCardValue up true =? 10)%Z ];
      cbn [sub add neg]; eexists; (split; [reflexivity|]);
      (split; [reflexivity|]); qc_arith. }
  destruct Hest as (w & Hw & Hl & Hwb).
  exists w. repeat split; try assumption.
  rewrite hit_ev_sum. cbv zeta. rewrite H21.
  destruct (stand_ev_Fin hand up d) as (w' & l' & Hw' & Hl' & ->).
  assert (w' = w) by congruence. assert (l' = Q2Qc 0) by congruence.
  subst. reflexivity.
Qed.

End NaturalFacts.

(** X15.  On a natural blackjack, with an up card and a card left in the
    shoe, the analysis recommends DOUBLE: the hand has two cards, so
    doubling is offered; hitting is valued as standing, the loss
    probability is 0 and the value of standing is positive, so that twice
    that value wins. *)
Theorem X15_natural_blackjack_recommends_double
    (st : Terminal.State) (up : Rank) :
  isBlackjack (evaluateHand (Terminal.playerCards st)) = true ->
  Terminal.dealerUpCard st = Some up ->
  (0 < totalRemaining (Terminal.deck st))%nat ->
  exists a : Component.Analysis,
    Component.currentAnalysis st = Returns (Some a)
    /\ recommendedAction (Component.strategy a) = DOUBLE
    /\ lossProb (Component.probs a) = lit 0
    /\ hitEV (Component.strategy a) = standEV (Component.strategy a)
    /\ ltb (lit 0) (standEV (Component.strategy a)) = true.
Proof.
  intros Hbj Hup Ht.
  destruct (natural_estimate _ up (Terminal.deck st) Hbj Ht)
    as (w & Hw & Hl & Hwb & Hhit).
  assert (Hlen : (length (Terminal.playerCards st) =? 2)%nat = true
                 /\ Component.first_two_equal (Terminal.playerCards st) = false).
  { destruct (natural_hands _ Hbj) as (t & Ht10 & [-> | ->]);
      destruct t; try discriminate Ht10; split; reflexivity. }
  destruct Hlen as [Hlen Hpair].
  assert (Hhand : Terminal.playerCards st <> []).
  { intros Hnil. rewrite Hnil in Hlen. discriminate Hlen. }
  destruct (currentAnalysis_cases st)
    as [[_ [H|H]] | (up' & r & Hup' & _ & Hrec & Hsome)];
    [contradiction | congruence |].
  assert (up' = up) by congruence. subst up'.
  rewrite Hlen, Hpair in Hrec. cbn [andb] in Hrec.
  destruct (recommendation_returns (Terminal.playerCards st) up
              (Terminal.deck st) (Some true) (Some false))
    as (w' & l' & h & sorted & Hw' & Hl' & Hh & _ & Hret).
  assert (w' = w) by congruence. assert (l' = Q2Qc 0) by congruence.
  assert (h = (w - Q2Qc 0)%Qc) by congruence. subst w' l' h.
  rewrite Hret in Hrec. injection Hrec as Hr.
  eexists. split; [exact Hsome|].
  cbn [Component.strategy Component.probs]. rewrite <- Hr.
  cbn [recommendedAction standEV hitEV with_default kept_candidates tl app
       fold_left].
  split; [|split; [exact Hl | split; [reflexivity|]]].
  - unfold pick, by_ev_descending. cbn [ev sub add neg sort_order].
    assert (E1 : ((w - Q2Qc 0 + - (w - Q2Qc 0)) ?= Q2Qc 0)%Qc = Eq).
    { apply (proj1 (Qceq_alt _ _)). apply Qc_is_canon. clear. qc2q. ring. }
    rewrite E1. cbn [ev action sub add neg sort_order].
    assert (E2 : (((w - Q2Qc 0) * Q2Qc 2 + - (w - Q2Qc 0)) ?= Q2Qc 0)%Qc = Gt).
    { apply (proj1 (Qcgt_alt _ _)). clear - Hwb. qc2q. lra. }
    rewrite E2. reflexivity.
  - unfold lit, ltb.
    assert (E : ((Q2Qc 0) ?= (w - Q2Qc 0))%Qc = Lt).
    { apply (proj1 (Qclt_alt _ _)). clear - Hwb. qc2q. lra. }
    rewrite E. reflexivity.
Qed.

Lemma X15_natural_blackjack_recommends_double_witness :
  isBlackjack (evaluateHand (Terminal.playerCards (tableState [cA; cK] c6)))
  = true
  /\ Terminal.dealerUpCard (tableState [cA; cK] c6) = Some c6
  /\ (0 < totalRemaining (Terminal.deck (tableState [cA; cK] c6)))%nat
  /\ exists a : Component.Analysis,
       Component.currentAnalysis (tableState [cA; cK] c6) = Returns (Some a)
       /\ recommendedAction (Component.strategy a) = DOUBLE.
Proof.
  assert (H1 : isBlackjack
                 (evaluateHand (Terminal.playerCards (tableState [cA; cK] c6)))
               = true) by reflexivity.
  assert (H2 : Terminal.dealerUpCard (tableState [cA; cK] c6) = Some c6)
    by reflexivity.
  assert (H3 : (0 < totalRemaining (Terminal.deck (tableState [cA; cK] c6)))%nat)
    by (vm_compute; lia).
  split; [exact H1 | split; [exact H2 | split; [exact H3|]]].
  destruct (X15_natural_blackjack_recommends_double _ c6 H1 H2 H3)
    as (a & Ha & Hd & _).
  exists a. split; [exact Ha | exact Hd].
Defined.

(** X16.  A loss is booked in full, with no check against the bankroll:
    when the bet is the whole bankroll and a hand is on the table,
    [finishHand] on a loss leaves a bankroll of 0 and the same cards, and
    the bet of the next round is then 1 with a bet percentage of
    [Infinity]. *)
Theorem X16_loss_of_the_whole_bankroll
    (app : Component.App) (up : Rank) (b : Qc) :
  Component.bankroll app = Fin b ->
  Component.currentBet app = Fin b ->
  Terminal.dealerUpCard (Component.cards app) = Some up ->
  Terminal.playerCards (Component.cards app) <> [] ->
  Component.bankroll (Component.finishHand Component.loss app) = lit 0
  /\ Component.cards (Component.finishHand Component.loss app)
     = Component.cards app
  /\ exists bet : BetRecommendation,
       Component.nextRoundBetting (Component.finishHand Component.loss app)
       = Returns (Some bet)
       /\ recommendedBet bet = lit 1
       /\ betPercentage bet = PInf.
Proof.
  intros Hb Hc Hup Hhand.
  assert (Hzero : Component.bankroll (Component.finishHand Component.loss app)
                  = Fin (Q2Qc 0)).
  { unfold Component.finishHand. cbn [Component.bankroll Component.payout_of].
    rewrite Hb, Hc. cbn [neg add]. apply f_equal. ring. }
  split; [exact Hzero|]. split; [reflexivity|].
  destruct (nextRoundBetting_present
              (Component.finishHand Component.loss app) up Hup Hhand)
    as (w & l & r & bet & _ & _ & _ & _ & _ & _ & Hbet & Hnext).
  exists bet. split; [exact Hnext|].
  rewrite Hzero in Hbet.
  destruct (bet_sizing_zero w l None Qc_one_neq_zero) as (k & Hk).
  cbn [option_map] in Hk. rewrite Hk in Hbet. injection Hbet as <-.
  split; reflexivity.
Qed.

Lemma X16_loss_of_the_whole_bankroll_witness :
  Component.bankroll (tableApp [c10; c6] c10 (Fin (Q2Qc 500)) (Fin (Q2Qc 500)))
  = Fin (Q2Qc 500)
  /\ Component.currentBet
       (tableApp [c10; c6] c10 (Fin (Q2Qc 500)) (Fin (Q2Qc 500)))
     = Fin (Q2Qc 500)
  /\ Component.bankroll
       (Component.finishHand Component.loss
          (tableApp [c10; c6] c10 (Fin (Q2Qc 500)) (Fin (Q2Qc 500))))
     = lit 0.
Proof.
  assert (H1 : Component.bankroll
                 (tableApp [c10; c6] c10 (Fin (Q2Qc 500)) (Fin (Q2Qc 500)))
               = Fin (Q2Qc 500)) by reflexivity.
  assert (H2 : Component.currentBet
                 (tableApp [c10; c6] c10 (Fin (Q2Qc 500)) (Fin (Q2Qc 500)))
               = Fin (Q2Qc 500)) by reflexivity.
  assert (H3 : Terminal.dealerUpCard
                 (Component.cards
                    (tableApp [c10; c6] c10 (Fin (Q2Qc 500)) (Fin (Q2Qc 500))))
               = Some c10) by reflexivity.
  assert (H4 : Terminal.playerCards
                 (Component.cards
                    (tableApp [c10; c6] c10 (Fin (Q2Qc 500)) (Fin (Q2Qc 500))))
               <> []) by discriminate.
  split; [exact H1 | split; [exact H2|]].
  exact (proj1 (X16_loss_of_the_whole_bankroll _ c10 (Q2Qc 500) H1 H2 H3 H4)).
Defined.

(** X17.  A click on a card of the player gives back the last card of
    that rank, which need not be the card clicked; the hand that is left
    is, up to the order of the cards, the hand without the card clicked,
    and so evaluates the same. *)
Theorem X17_click_removes_a_card_of_the_rank
    (st : Terminal.State) (index : nat) (card : Rank) :
  nth_error (Terminal.playerCards st) index = Some card ->
  exists st' : Terminal.State,
    Component.removeCard card Terminal.player st = Returns st'
    /\ Permutation (Terminal.playerCards st')
         (Component.splice1 (Terminal.playerCards st) index)
    /\ evaluateHand (Terminal.playerCards st')
       = evaluateHand (Component.splice1 (Terminal.playerCards st) index)
    /\ length (Terminal.playerCards st')
       = (length (Terminal.playerCards st) - 1)%nat.
Proof.
  intros Hnth.
  destruct (last_occurrence _ _ (nth_error_In _ _ Hnth))
    as (l1 & l2 & Hhand & Hl2).
  rewrite (removeCard_player_last st card l1 l2 Hhand Hl2).
  eexists. split; [reflexivity|]. cbn [Terminal.playerCards].
  assert (Hperm : Permutation (l1 ++ l2)
                    (Component.splice1 (Terminal.playerCards st) index)).
  { apply (Permutation_cons_inv (a := card)).
    apply perm_trans with (Terminal.playerCards st).
    - rewrite Hhand. apply Permutation_middle.
    - unfold Component.splice1.
      apply perm_trans
        with (firstn index (Terminal.playerCards st)
              ++ card :: skipn (S index) (Terminal.playerCards st)).
      + destruct (nth_error_split _ _ Hnth) as (k1 & k2 & Hk & Hlen).
        rewrite Hk at 1. rewrite Hk.
        rewrite firstn_app, <- Hlen, firstn_all, Nat.sub_diag. cbn [firstn].
        rewrite app_nil_r.
        assert (Hskip : skipn (S (length k1)) (k1 ++ card :: k2) = k2).
        { clear. induction k1 as [|x k1 IH]; [reflexivity | exact IH]. }
        rewrite Hskip. apply Permutation_refl.
      + apply Permutation_sym, Permutation_middle. }
  split; [exact Hperm|]. split; [apply evaluateHand_perm; exact Hperm|].
  rewrite Hhand, !length_app. cbn [length]. lia.
Qed.

Lemma X17_click_removes_a_card_of_the_rank_witness :
  nth_error (Terminal.playerCards (tableState [c5; cK; c5] c6)) 0 = Some c5
  /\ exists st' : Terminal.State,
       Component.removeCard c5 Terminal.player (tableState [c5; cK; c5] c6)
       = Returns st'
       /\ Permutation (Terminal.playerCards st')
            (Component.splice1
               (Terminal.playerCards (tableState [c5; cK; c5] c6)) 0).
Proof.
  assert (H : nth_error (Terminal.playerCards (tableState [c5; cK; c5] c6)) 0
              = Some c5) by reflexivity.
  split; [exact H|].
  destruct (X17_click_removes_a_card_of_the_rank _ 0%nat c5 H)
    as (st' & Hret & Hperm & _).
  exists st'. split; [exact Hret | exact Hperm].
Defined.

(** X18.  A draw takes exactly one card out of the shoe: [addCard] on a
    rank that is available leaves one card less in all, and on a rank
    that is not, the same number. *)
Theorem X18_addCard_takes_one_card
    (st : Terminal.State) (card : Rank) (target : Terminal.Target) :
  exists st' : Terminal.State,
    Terminal.addCard card target st = Returns st'
    /\ (totalRemaining (Terminal.deck st')
        + (if (Terminal.deck st card =? 0)%nat then 0 else 1)
        = totalRemaining (Terminal.deck st))%nat.
Proof.
  destruct (Terminal.deck st card =? 0)%nat eqn:E.
  - apply Nat.eqb_eq in E. exists st. split; [|lia].
    unfold Terminal.addCard. rewrite E. reflexivity.
  - apply Nat.eqb_neq in E. rewrite addCard_spec by lia.
    eexists. split; [reflexivity|]. cbn [Terminal.deck].
    pose proof (totalRemaining_deck_set (Terminal.deck st) card
                  (Terminal.deck st card - 1)%nat).
    lia.
Qed.
